(** * booklit: diagnostics rendering ([errors.go])

    A shallow embedding of package [booklit]'s error reporting: the five
    diagnostic kinds, the plain (ANSI) narrative written by [PrettyPrint],
    the source-line annotation ([lineInQuestion], [AnnotateLocation],
    [AnnotatedHTML]) and the page responder ([ErrorPage]).

    Conventions.
    - Go's [int] is the 64-bit two's complement integer; values are [Z] and
      every arithmetic operation of the source is followed by [wrap].
    - Go strings are byte strings: [string] of [ascii].
    - A Go function returning [(T, error)] returns [T * option error]
      ([None] is [nil]).
    - A run-time panic (negative [strings.Repeat] count, slice bounds out of
      range, method call through a nil [*Template]) is the outcome
      [Panicked]; the state of the sinks at that moment is not tracked.
    - An [io.Writer] is threaded explicitly: every writing function takes
      the sink and returns it. *)

From Stdlib Require Import ZArith List String Ascii Bool Lia DecimalString.
Import ListNotations.

Local Open Scope string_scope.
Local Open Scope Z_scope.

(** ** Go's [int] *)

Module GoInt.

Definition min_int : Z := - 2 ^ 63.
Definition max_int : Z := 2 ^ 63 - 1.

Definition wrap (z : Z) : Z := (z + 2 ^ 63) mod 2 ^ 64 - 2 ^ 63.

Definition is_int (z : Z) : Prop := min_int <= z <= max_int.

Definition add (a b : Z) : Z := wrap (a + b).
Definition sub (a b : Z) : Z := wrap (a - b).

End GoInt.

(** ** Outcomes: a call returns or panics *)

Inductive Outcome (A : Type) : Type :=
| Returned (a : A)
| Panicked.

Arguments Returned {A} a.
Arguments Panicked {A}.

Definition bindO {A B : Type} (m : Outcome A) (k : A -> Outcome B) : Outcome B :=
  match m with
  | Returned a => k a
  | Panicked => Panicked
  end.

Notation "x <- m ;; k" := (bindO m (fun x => k))
  (at level 61, m at next level, right associativity).

(** ** Byte strings *)

Module GoString.

Definition LF : ascii := "010"%char.
Definition CR : ascii := "013"%char.
Definition ESC : ascii := "027"%char.

Definition nl : string := String LF EmptyString.

(** [len(s)] *)
Definition len (s : string) : Z := Z.of_nat (String.length s).

Fixpoint replicate (n : nat) (s : string) : string :=
  match n with
  | O => EmptyString
  | S n' => s ++ replicate n' s
  end.

(** [strings.Repeat(s, count)]: panics on a negative count. The limits of
    memory are left out: a count too large to allocate, which ends the
    program as well, is returned here, so the statements that assert a
    return bound their counts. *)
Definition Repeat (s : string) (count : Z) : Outcome string :=
  if count <? 0 then Panicked else Returned (replicate (Z.to_nat count) s).

(** The slice expression [s[lo:hi]]: panics unless [0 <= lo <= hi <= len(s)]. *)
Definition slice (s : string) (lo hi : Z) : Outcome string :=
  if (0 <=? lo) && (lo <=? hi) && (hi <=? len s)
  then Returned (substring (Z.to_nat lo) (Z.to_nat (hi - lo)) s)
  else Panicked.

(** [s[lo:]] *)
Definition slice_from (s : string) (lo : Z) : Outcome string :=
  slice s lo (len s).

Fixpoint concat_all (l : list string) : string :=
  match l with
  | [] => EmptyString
  | s :: l' => s ++ concat_all l'
  end.

End GoString.

Import GoString.

(** ** Locations and errors *)

(** [ast.Location]: 1-indexed line and column; [Line = 0] means that the
    location is unavailable. *)
Record Location : Type := { Line : Z; Col : Z }.

Record ErrorLocation : Type := {
  FilePath : string;
  NodeLocation : Location;
  Length : Z
}.

(** Go's [error] values: [io.EOF], the values of the five diagnostic types
    of this package (the implementations of [PrettyError]), and any other
    error, of which only the message matters here. *)
Inductive error : Type :=
| EOF
| errorString (msg : string)
| Pretty (d : PrettyError)
with PrettyError : Type :=
| ParseError (Err : error) (loc : ErrorLocation)
| UnknownTagError (TagName : string) (loc : ErrorLocation)
| AmbiguousReferenceError (TagName : string)
    (DefinedLocations : list ErrorLocation) (loc : ErrorLocation)
| UndefinedFunctionError (Function : string) (loc : ErrorLocation)
| FailedFunctionError (Function : string) (Err : error) (loc : ErrorLocation).

(** The embedded [ErrorLocation] of a diagnostic. *)
Definition location (d : PrettyError) : ErrorLocation :=
  match d with
  | ParseError _ loc => loc
  | UnknownTagError _ loc => loc
  | AmbiguousReferenceError _ _ loc => loc
  | UndefinedFunctionError _ loc => loc
  | FailedFunctionError _ _ loc => loc
  end.

(** [err == io.EOF] *)
Definition is_EOF (e : error) : bool :=
  match e with
  | EOF => true
  | _ => false
  end.

(** The [Error() string] methods. *)
Fixpoint Error (e : error) : string :=
  match e with
  | EOF => "EOF"
  | errorString msg => msg
  | Pretty d => PrettyError_Error d
  end
with PrettyError_Error (d : PrettyError) : string :=
  match d with
  | ParseError Err _ => Error Err
  | UnknownTagError TagName _ => "unknown tag '" ++ TagName ++ "'"
  | AmbiguousReferenceError TagName _ _ =>
      "ambiguous target for tag '" ++ TagName ++ "'"
  | UndefinedFunctionError Function _ => "undefined function \" ++ Function
  | FailedFunctionError Function Err _ =>
      "function \" ++ Function ++ " returned an error: " ++ Error Err
  end.

(** ** Files and [bufio.Reader] *)

(** A file as the reads see it: its bytes, and the error that every read
    returns once they are consumed ([EOF] for an ordinary file, another
    error for a failing device). *)
Record File : Type := { contents : string; at_end : error }.

(** [os.Open] *)
Inductive OpenResult : Type :=
| OpenFails (e : error)
| Opens (f : File).

Definition FileSystem : Type := string -> OpenResult.

Module bufio.

(** The state of a [bufio.Reader] over a file: the bytes not yet returned
    and the error that follows them. *)
Record Reader : Type := { unread : string; pending : error }.

Definition NewReader (f : File) : Reader :=
  {| unread := contents f; pending := at_end f |}.

Definition defaultBufSize : nat := 4096.

(** How [ReadSlice('\n')] stops. *)
Inductive Stop : Type :=
| Found      (* the delimiter was read *)
| BufferFull (* the buffer filled up without a delimiter: [ErrBufferFull] *)
| Drained.   (* the stream ended first: the pending error is returned *)

(** [scan size s]: the bytes returned by [ReadSlice('\n')] from the unread
    bytes [s] with a buffer of [size] bytes, what stays unread, and why it
    stopped. *)
Fixpoint scan (size : nat) (s : string) : string * string * Stop :=
  match size with
  | O => (EmptyString, s, BufferFull)
  | S size' =>
      match s with
      | EmptyString => (EmptyString, EmptyString, Drained)
      | String c s' =>
          if Ascii.eqb c LF then (String c EmptyString, s', Found)
          else let '(l, r, st) := scan size' s' in (String c l, r, st)
      end
  end.

(** [s] without its last byte, and that byte. *)
Fixpoint unsnoc (s : string) : option (string * ascii) :=
  match s with
  | EmptyString => None
  | String c s' =>
      match unsnoc s' with
      | None => Some (EmptyString, c)
      | Some (i, l) => Some (String c i, l)
      end
  end.

(** The end of [ReadLine]: [drop] is 1 for the line feed, 2 when a carriage
    return precedes it. *)
Definition dropLineEnd (line : string) : string :=
  match unsnoc line with
  | Some (i, l) =>
      if Ascii.eqb l LF then
        match unsnoc i with
        | Some (i', l') => if Ascii.eqb l' CR then i' else i
        | None => i
        end
      else line
  | None => line
  end.

(** [ReadLine() (line []byte, isPrefix bool, err error)] *)
Definition ReadLine (b : Reader) : (string * bool * option error) * Reader :=
  let '(line, rest, st) := scan defaultBufSize (unread b) in
  match st with
  | BufferFull =>
      (* a line longer than the buffer: its beginning is returned; a final
         carriage return is put back for the next call *)
      match unsnoc line with
      | Some (i, l) =>
          if Ascii.eqb l CR
          then ((i, true, None), {| unread := String CR rest; pending := pending b |})
          else ((line, true, None), {| unread := rest; pending := pending b |})
      | None => ((line, true, None), {| unread := rest; pending := pending b |})
      end
  | Drained =>
      match line with
      | EmptyString =>
          ((EmptyString, false, Some (pending b)),
           {| unread := EmptyString; pending := pending b |})
      | _ =>
          (* input ending without a final line end: no error is given *)
          ((line, false, None), {| unread := EmptyString; pending := pending b |})
      end
  | Found =>
      ((dropLineEnd line, false, None), {| unread := rest; pending := pending b |})
  end.

End bufio.

(** ** [lineInQuestion] *)

(** The loop [for i := 0; i < loc.NodeLocation.Line-1; i++]: [n] calls of
    [ReadLine], returning at the first error. *)
Fixpoint discardLines (n : nat) (buf : bufio.Reader) : error + bufio.Reader :=
  match n with
  | O => inr buf
  | S n' =>
      let '((_, _, err), buf') := bufio.ReadLine buf in
      match err with
      | Some e => inl e
      | None => discardLines n' buf'
      end
  end.

Definition lineInQuestion (fs : FileSystem) (loc : ErrorLocation)
  : string * option error :=
  match fs (FilePath loc) with
  | OpenFails e => (EmptyString, Some e)
  | Opens file =>
      let buf := bufio.NewReader file in
      match discardLines (Z.to_nat (GoInt.sub (Line (NodeLocation loc)) 1)) buf with
      | inl e => (EmptyString, Some e)
      | inr buf' =>
          let '((lineInQuestion, _, err), _) := bufio.ReadLine buf' in
          match err with
          | Some e =>
              if is_EOF e then (EmptyString, None) else (EmptyString, Some e)
          | None => (lineInQuestion, None)
          end
      end
  end.

(** ** Package [fmt], as far as [errors.go] uses it *)

Module fmt.

(** The decimal digits of a magnitude. *)
Definition digits (n : N) : string := NilZero.string_of_uint (N.to_uint n).

(** The verb [%d] applied to an [int]. *)
Definition verb_d (z : Z) : string :=
  (if z <? 0 then "-" else EmptyString) ++ digits (Z.abs_N z).

(** Left padding with spaces up to [width] bytes. *)
Definition padLeft (width : nat) (s : string) : string :=
  replicate (width - String.length s) " " ++ s.

(** The verb [% 4d] applied to an [int]: the space flag leaves a blank where
    the sign of a non-negative number is elided, and the result is then
    padded on the left to the width 4. *)
Definition verb_space4d (z : Z) : string :=
  padLeft 4 ((if z <? 0 then "-" else " ") ++ digits (Z.abs_N z)).

(** *** A format scanned without operands

    [Fprintf(w, format)] called with a format and no operand runs
    [doPrintf(format, nil)]: text is copied, and every verb is reported as
    it finds no operand. The verb is taken to be one byte, as it is in an
    ASCII format. *)

Definition isFlag (c : ascii) : bool :=
  Ascii.eqb c "#" || Ascii.eqb c "0" || Ascii.eqb c "+" || Ascii.eqb c "-"
  || Ascii.eqb c " ".

Fixpoint skipFlags (s : string) : string :=
  match s with
  | String c s' => if isFlag c then skipFlags s' else s
  | EmptyString => s
  end.

Definition isDigit (c : ascii) : bool :=
  let n := nat_of_ascii c in (48 <=? n)%nat && (n <=? 57)%nat.

Definition tooLarge (x : Z) : bool := (1000000 <? x) || (x <? -1000000).

(** [parsenum]: whether a number was read, and the format left after it; a
    number that is too large abandons the whole format. *)
Fixpoint parsenum_from (num : Z) (isnum : bool) (s : string) : bool * string :=
  match s with
  | String c s' =>
      if isDigit c then
        if tooLarge num then (false, EmptyString)
        else parsenum_from (num * 10 + (Z.of_nat (nat_of_ascii c) - 48)) true s'
      else (isnum, s)
  | EmptyString => (isnum, s)
  end.

Definition parsenum (s : string) : bool * string := parsenum_from 0 false s.

(** The bytes of [s] before the first ["]"], and what follows it. *)
Fixpoint untilBracket (s : string) : option (string * string) :=
  match s with
  | EmptyString => None
  | String c s' =>
      if Ascii.eqb c "]" then Some (EmptyString, s')
      else match untilBracket s' with
           | Some (inside, after) => Some (String c inside, after)
           | None => None
           end
  end.

(** [parseArgNumber] on a format that starts with ["["]: the format left
    after the index, and whether the index is a number. *)
Definition parseArgNumber (s : string) : string * bool :=
  match s with
  | EmptyString => (s, false)
  | String _ s' =>
      if (String.length s <? 3)%nat then (s', false)
      else match untilBracket s' with
           | Some (inside, after) =>
               match parsenum inside with
               | (true, EmptyString) => (after, true)
               | _ => (after, false)
               end
           | None => (s', false)
           end
  end.

(** [argNumber] with no operand: the format left, [afterIndex], and whether
    an index was met (none is in range, so [goodArgNum] becomes false). *)
Definition argNumber (s : string) : string * bool * bool :=
  match s with
  | String c _ =>
      if Ascii.eqb c "[" then let '(s', ok) := parseArgNumber s in (s', ok, true)
      else (s, false, false)
  | EmptyString => (s, false, false)
  end.

Definition startsWith (c : ascii) (s : string) : bool :=
  match s with
  | String c' _ => Ascii.eqb c c'
  | EmptyString => false
  end.

Definition tail (s : string) : string :=
  match s with
  | String _ s' => s'
  | EmptyString => s
  end.

(** One verb, from the byte after ["%"]: what is written for it, and the
    format left. *)
Definition verbNoOperand (s : string) : string * string :=
  let s := skipFlags s in
  let '(s, afterIndex, bad1) := argNumber s in
  (* width *)
  let '(out1, s, afterIndex) :=
    if startsWith "*" s then ("%!(BADWIDTH)", tail s, false)
    else (EmptyString, snd (parsenum s), afterIndex) in
  (* precision *)
  let '(out2, s, afterIndex, bad2) :=
    if startsWith "." s then
      let '(s, afterIndex, bad) := argNumber (tail s) in
      if startsWith "*" s then ("%!(BADPREC)", tail s, false, bad)
      else (EmptyString, snd (parsenum s), afterIndex, bad)
    else (EmptyString, s, afterIndex, false) in
  let '(s, bad3) :=
    if afterIndex then (s, false)
    else let '(s, _, bad) := argNumber s in (s, bad) in
  match s with
  | EmptyString => (out1 ++ out2 ++ "%!(NOVERB)", EmptyString)
  | String verb s' =>
      if Ascii.eqb verb "%" then (out1 ++ out2 ++ "%", s')
      else if bad1 || bad2 || bad3
      then (out1 ++ out2 ++ "%!" ++ String verb "(BADINDEX)", s')
      else (out1 ++ out2 ++ "%!" ++ String verb "(MISSING)", s')
  end.

(** The format loop; [fuel] bounds the number of bytes and verbs met. *)
Fixpoint doPrintf_nil (fuel : nat) (format : string) : string :=
  match fuel with
  | O => EmptyString
  | S fuel' =>
      match format with
      | EmptyString => EmptyString
      | String c rest =>
          if Ascii.eqb c "%" then
            let '(out, rest') := verbNoOperand rest in
            out ++ doPrintf_nil fuel' rest'
          else String c (doPrintf_nil fuel' rest)
      end
  end.

(** [Sprintf(format)] with no operand. Every step of the loop consumes at
    least one byte of the format, so its length is fuel enough. *)
Definition Sprintf_nil (format : string) : string :=
  doPrintf_nil (String.length format) format.

End fmt.

(** ** Sinks: [io.Writer] *)

(** [Write(p) (n int, err error)]; the callers in this package drop [n]. *)
Class Writer (W : Type) : Type := Write : string -> W -> option error * W.

(** [bytes.Buffer]: writes append and never fail. *)
Record Buffer : Type := NewBuffer { bytes : string }.

#[global] Instance Buffer_Writer : Writer Buffer :=
  fun p b => (None, NewBuffer (bytes b ++ p)).

(** [fmt.Fprintf(w, format, operands...)] with a constant format: the
    formatted [text] is handed to the sink in one [Write]. *)
Definition Fprintf {W : Type} `{Writer W} (w : W) (text : string)
  : option error * W := Write text w.

(** [fmt.Fprintf(w, format)] without operands: the format is scanned as one
    and what results is written. *)
Definition Fprintf_nil {W : Type} `{Writer W} (w : W) (format : string)
  : option error * W := Write (fmt.Sprintf_nil format) w.

(** *** [textio.PrefixWriter]

    The writer of package [github.com/segmentio/textio] that places a
    prefix before every line: the bytes written are cut into lines, a line
    is kept in the buffer until its line feed arrives, and a complete line
    is written to the base writer after the prefix. Nothing in this package
    calls [Flush]. *)

Module textio.

Record PrefixWriter (W : Type) : Type := {
  base : W;
  indent : string;
  buffer : string
}.

Arguments base {W} _.
Arguments indent {W} _.
Arguments buffer {W} _.

Definition NewPrefixWriter {W : Type} (w : W) (s : string) : PrefixWriter W :=
  {| base := w; indent := s; buffer := EmptyString |}.

(** [forEachLine]: the lines of [b], each with its line feed; the last one
    may lack it. *)
Fixpoint splitLines (b : string) : list string :=
  match b with
  | EmptyString => []
  | String c b' =>
      if Ascii.eqb c LF then String c EmptyString :: splitLines b'
      else match splitLines b' with
           | [] => [String c EmptyString]
           | l :: ls => String c l :: ls
           end
  end.

(** [isLine]: not empty and ended by a line feed. *)
Definition isLine (b : string) : bool :=
  match bufio.unsnoc b with
  | Some (_, l) => Ascii.eqb l LF
  | None => false
  end.

(** The body of [Write], line by line; it stops at the first error of the
    base writer. *)
Fixpoint writeLines {W : Type} `{Writer W} (lines : list string)
  (w : PrefixWriter W) : option error * PrefixWriter W :=
  match lines with
  | [] => (None, w)
  | line :: rest =>
      let chunk := buffer w ++ line in
      if isLine chunk then
        match Write (indent w) (base w) with
        | (Some err, b) =>
            (Some err, {| base := b; indent := indent w; buffer := chunk |})
        | (None, b) =>
            match Write chunk b with
            | (Some err, b') =>
                (Some err, {| base := b'; indent := indent w; buffer := chunk |})
            | (None, b') =>
                writeLines rest
                  {| base := b'; indent := indent w; buffer := EmptyString |}
            end
        end
      else
        writeLines rest {| base := base w; indent := indent w; buffer := chunk |}
  end.

#[global] Instance PrefixWriter_Writer {W : Type} `{Writer W}
  : Writer (PrefixWriter W) :=
  fun p w => writeLines (splitLines p) w.

End textio.

(** ** Templates *)

Record AnnotationData : Type := {
  AD_FilePath : string;
  AD_EOF : bool;
  AD_Lineno : string;
  AD_Prefix : string;
  AD_Annotated : string;
  AD_Suffix : string
}.

(** What a template is executed against. *)
Inductive TemplateData : Type :=
| ErrorData (err : error)
| LineData (data : AnnotationData).

(** A parsed template of package [errhtml], by what its execution does: the
    pieces of text it writes, in order, and the error that ends it, if
    any. *)
Record Template : Type := { run : TemplateData -> list string * option error }.

(** The template set [errorTmpl], by registered name; a later definition of
    a name replaces an earlier one. *)
Definition TemplateSet : Type := list (string * Template).

(** [Lookup(name)]: [None] is the nil template. *)
Fixpoint Lookup (set : TemplateSet) (name : string) : option Template :=
  match set with
  | [] => None
  | (n, t) :: set' => if String.eqb n name then Some t else Lookup set' name
  end.

Fixpoint writeAll {W : Type} `{Writer W} (pieces : list string) (w : W)
  : option error * W :=
  match pieces with
  | [] => (None, w)
  | p :: pieces' =>
      match Write p w with
      | (Some err, w') => (Some err, w')
      | (None, w') => writeAll pieces' w'
      end
  end.

(** [t.Execute(w, data)]: calling it through the nil template panics; a
    failing write ends the execution with the error of the sink. *)
Definition Execute {W : Type} `{Writer W} (t : option Template) (w : W)
  (data : TemplateData) : Outcome (option error * W) :=
  match t with
  | None => Panicked
  | Some t =>
      let '(pieces, err) := run t data in
      match writeAll pieces w with
      | (Some werr, w') => Returned (Some werr, w')
      | (None, w') => Returned (err, w')
      end
  end.

(** ** The renderers of [errors.go] *)

Definition red : string := String ESC "[31m".
Definition reset : string := String ESC "[0m".

(** [loc.Annotate(msg, args...)]; [formatted] is [fmt.Sprintf(msg, args...)],
    which the constant formats of the callers make a concatenation. *)
Definition Annotate (loc : ErrorLocation) (formatted : string) : string :=
  if Line (NodeLocation loc) =? 0
  then FilePath loc ++ ": " ++ formatted
  else FilePath loc ++ ":" ++ fmt.verb_d (Line (NodeLocation loc)) ++ ": "
       ++ formatted.

(** The assignments of [AnnotatedHTML] to [data] (lines 253-267), for the
    line that was read. *)
Definition annotationData (loc : ErrorLocation) (line : string)
  : Outcome AnnotationData :=
  let EOF := if String.eqb line EmptyString then true else false in
  let lineno := fmt.verb_space4d (Line (NodeLocation loc)) in
  let offset := GoInt.sub (Col (NodeLocation loc)) 1 in
  if len line >=? GoInt.add offset (Length loc) then
    prefix <- slice line 0 offset ;;
    annotated <- slice line offset (GoInt.add offset (Length loc)) ;;
    suffix <- slice_from line (GoInt.add offset (Length loc)) ;;
    Returned {| AD_FilePath := FilePath loc; AD_EOF := EOF; AD_Lineno := lineno;
                AD_Prefix := prefix; AD_Annotated := annotated;
                AD_Suffix := suffix |}
  else
    Returned {| AD_FilePath := FilePath loc; AD_EOF := EOF; AD_Lineno := lineno;
                AD_Prefix := EmptyString; AD_Annotated := EmptyString;
                AD_Suffix := EmptyString |}.

Section Renderers.

(** The files at render time, and the template set built by [init]. *)
Variable fs : FileSystem.
Variable errorTmpl : TemplateSet.

Definition AnnotateLocation {W : Type} `{Writer W} (loc : ErrorLocation)
  (out : W) : Outcome (option error * W) :=
  if Line (NodeLocation loc) =? 0 then
    (* location unavailable *)
    Returned (None, out)
  else
    match lineInQuestion fs loc with
    | (_, Some err) => Returned (Some err, out)
    | (line, None) =>
        let prefix := fmt.verb_space4d (Line (NodeLocation loc)) ++ "| " in
        match Fprintf out (prefix ++ line ++ nl) with
        | (Some err, out1) => Returned (Some err, out1)
        | (None, out1) =>
            pad <- Repeat " "
                     (GoInt.sub (GoInt.add (len prefix) (Col (NodeLocation loc))) 1) ;;
            carets <- Repeat "^" (Length loc) ;;
            match Fprintf out1 (pad ++ red ++ carets ++ reset ++ nl) with
            | (Some err, out2) => Returned (Some err, out2)
            | (None, out2) => Returned (None, out2)
            end
        end
    end.

Definition AnnotatedHTML {W : Type} `{Writer W} (loc : ErrorLocation)
  (out : W) : Outcome (option error * W) :=
  if Line (NodeLocation loc) =? 0 then
    (* location unavailable *)
    Returned (None, out)
  else
    match lineInQuestion fs loc with
    | (_, Some err) => Returned (Some err, out)
    | (line, None) =>
        data <- annotationData loc line ;;
        Execute (Lookup errorTmpl "annotated-line.tmpl") out (LineData data)
    end.

(** The loop of [AmbiguousReferenceError.PrettyPrint] over
    [DefinedLocations]: every location is annotated through a prefix writer
    of its own over [out]. *)
Fixpoint printDefinedLocations {W : Type} `{Writer W}
  (locs : list ErrorLocation) (out : W) : Outcome W :=
  match locs with
  | [] => Returned out
  | loc :: locs' =>
      let '(_, out1) := Fprintf out ("- " ++ FilePath loc ++ ":" ++ nl) in
      r <- AnnotateLocation loc (textio.NewPrefixWriter out1 "  ") ;;
      printDefinedLocations locs' (textio.base (snd r))
  end.

(** [PrettyPrint(out io.Writer)]: no result; what [Fprintf] and
    [AnnotateLocation] return is dropped. *)
Definition PrettyPrint {W : Type} `{Writer W} (d : PrettyError) (out : W)
  : Outcome W :=
  match d with
  | ParseError Err loc =>
      let '(_, out1) :=
        Fprintf_nil out (Annotate loc ("parse error: " ++ Error Err ++ nl ++ nl)) in
      r <- AnnotateLocation loc out1 ;;
      Returned (snd r)
  | UnknownTagError TagName loc =>
      let '(_, out1) :=
        Fprintf_nil out
          (Annotate loc ("reference points to unknown tag '" ++ TagName ++ "':"
                         ++ nl ++ nl)) in
      r <- AnnotateLocation loc out1 ;;
      Returned (snd r)
  | AmbiguousReferenceError _ DefinedLocations loc =>
      let '(_, out1) :=
        Fprintf_nil out (Annotate loc (PrettyError_Error d ++ ":" ++ nl ++ nl)) in
      r <- AnnotateLocation loc out1 ;;
      let '(_, out2) :=
        Fprintf_nil (snd r)
          ("the same tag was defined in the following locations:" ++ nl ++ nl) in
      out3 <- printDefinedLocations DefinedLocations out2 ;;
      let '(_, out4) := Fprintf_nil out3 ("one of these must be changed." ++ nl) in
      Returned out4
  | UndefinedFunctionError _ loc =>
      let '(_, out1) :=
        Fprintf_nil out (Annotate loc (PrettyError_Error d ++ ":" ++ nl ++ nl)) in
      r <- AnnotateLocation loc out1 ;;
      Returned (snd r)
  | FailedFunctionError Function Err loc =>
      let '(_, out1) :=
        Fprintf_nil out
          (Annotate loc ("function \" ++ Function ++ " returned an error:"
                         ++ nl ++ nl)) in
      r <- AnnotateLocation loc out1 ;;
      let '(_, out2) := Fprintf (snd r) ("error: " ++ Error Err ++ nl) in
      Returned out2
  end.

(** [PrettyHTML(out io.Writer) error] *)
Definition PrettyHTML {W : Type} `{Writer W} (d : PrettyError) (out : W)
  : Outcome (option error * W) :=
  match d with
  | ParseError _ _ =>
      Execute (Lookup errorTmpl "parse-error.tmpl") out (ErrorData (Pretty d))
  | UnknownTagError _ _ =>
      Execute (Lookup errorTmpl "unknown-tag.tmpl") out (ErrorData (Pretty d))
  | AmbiguousReferenceError _ _ _ =>
      Execute (Lookup errorTmpl "ambiguous-reference.tmpl") out
        (ErrorData (Pretty d))
  | UndefinedFunctionError _ _ =>
      Execute (Lookup errorTmpl "undefined-function.tmpl") out
        (ErrorData (Pretty d))
  | FailedFunctionError _ _ _ =>
      Execute (Lookup errorTmpl "function-error.tmpl") out (ErrorData (Pretty d))
  end.

(** [ErrorPage(err error, w http.ResponseWriter)]: no result. *)
Definition ErrorPage {W : Type} `{Writer W} (err : error) (w : W) : Outcome W :=
  r <- Execute (Lookup errorTmpl "page.tmpl") w (ErrorData err) ;;
  match r with
  | (Some renderErr, w1) =>
      Returned (snd (Fprintf w1 ("failed to render error page: " ++ Error renderErr)))
  | (None, w1) => Returned w1
  end.

(** The template function ["annotate"] of [init]. *)
Definition annotate (loc : ErrorLocation) : Outcome (string * option error) :=
  r <- AnnotatedHTML loc (NewBuffer EmptyString) ;;
  match r with
  | (Some err, _) => Returned (EmptyString, Some err)
  | (None, buf) => Returned (bytes buf, None)
  end.

End Renderers.

(** ** Notions used by the statements *)

(** The lines of a reader as successive calls of [ReadLine] return them, up
    to the first error. Every call that returns a line consumes at least
    one byte, so the count of the unread bytes, plus one, is fuel enough. *)
Fixpoint readLines (fuel : nat) (b : bufio.Reader) : list string :=
  match fuel with
  | O => []
  | S fuel' =>
      match bufio.ReadLine b with
      | ((line, _, None), b') => line :: readLines fuel' b'
      | ((_, _, Some _), _) => []
      end
  end.

Definition linesOf (f : File) : list string :=
  readLines (S (String.length (contents f))) (bufio.NewReader f).

(** The window of a location in [int] arithmetic: [offset + loc.Length] as
    the guard of [AnnotatedHTML] computes it. *)
Definition window (loc : ErrorLocation) : Z :=
  GoInt.add (GoInt.sub (Col (NodeLocation loc)) 1) (Length loc).

Definition emptySplit (d : AnnotationData) : Prop :=
  AD_Prefix d = EmptyString /\ AD_Annotated d = EmptyString
  /\ AD_Suffix d = EmptyString.

(** The text that [PrettyPrint] builds with [Annotate] for its first line:
    the location prefix and the words of the kind. [PrettyPrint] hands it to
    [Fprintf] in the place of the format. *)
Definition firstLine (d : PrettyError) : string :=
  match d with
  | ParseError Err loc => Annotate loc ("parse error: " ++ Error Err ++ nl ++ nl)
  | UnknownTagError TagName loc =>
      Annotate loc ("reference points to unknown tag '" ++ TagName ++ "':"
                    ++ nl ++ nl)
  | AmbiguousReferenceError _ _ loc
  | UndefinedFunctionError _ loc =>
      Annotate loc (PrettyError_Error d ++ ":" ++ nl ++ nl)
  | FailedFunctionError Function _ loc =>
      Annotate loc ("function \" ++ Function ++ " returned an error:" ++ nl ++ nl)
  end.

Fixpoint contains (c : ascii) (s : string) : bool :=
  match s with
  | EmptyString => false
  | String c' s' => Ascii.eqb c c' || contains c s'
  end.

(** The name of the template that [PrettyHTML] looks up for a kind. *)
Definition kindTemplate (d : PrettyError) : string :=
  match d with
  | ParseError _ _ => "parse-error.tmpl"
  | UnknownTagError _ _ => "unknown-tag.tmpl"
  | AmbiguousReferenceError _ _ _ => "ambiguous-reference.tmpl"
  | UndefinedFunctionError _ _ => "undefined-function.tmpl"
  | FailedFunctionError _ _ _ => "function-error.tmpl"
  end.

(** What [PrettyPrint] writes after the first line once the annotation of
    its own location is over. *)
Definition afterAnnotation {W : Type} `{Writer W} (fs : FileSystem)
  (d : PrettyError) (out : W) : Outcome W :=
  match d with
  | ParseError _ _ | UnknownTagError _ _ | UndefinedFunctionError _ _ =>
      Returned out
  | AmbiguousReferenceError _ DefinedLocations _ =>
      out3 <- printDefinedLocations fs DefinedLocations
                (snd (Fprintf_nil out
                        ("the same tag was defined in the following locations:"
                         ++ nl ++ nl))) ;;
      Returned (snd (Fprintf_nil out3 ("one of these must be changed." ++ nl)))
  | FailedFunctionError _ Err _ =>
      Returned (snd (Fprintf out ("error: " ++ Error Err ++ nl)))
  end.

(** The line-number gutter of [AnnotateLocation]: [Sprintf("% 4d", Line)]. *)
Definition gutter (loc : ErrorLocation) : string :=
  fmt.verb_space4d (Line (NodeLocation loc)).

(** The count of the padding of the second row, as the code computes it:
    [len(prefix)+loc.NodeLocation.Col-1]. *)
Definition padWidth (loc : ErrorLocation) : Z :=
  GoInt.sub (GoInt.add (len (gutter loc ++ "| ")) (Col (NodeLocation loc))) 1.

(** A size that the run time allocates without fail. The statements that
    assert that both rows are written are for counts up to it. *)
Definition modestSize : Z := 2 ^ 20.

(** The two rows of an annotation. *)
Definition gutterRow (loc : ErrorLocation) (line : string) : string :=
  gutter loc ++ "| " ++ line ++ nl.

Definition caretRow (pad carets : nat) : string :=
  replicate pad " " ++ red ++ replicate carets "^" ++ reset ++ nl.

(** The gutter in the words of C5: the number right-aligned in four
    columns, wider only when it has more than four digits. *)
Definition claimedGutter (line : Z) : string := fmt.padLeft 4 (fmt.verb_d line).

(** Every line of [text] after the prefix [p]. *)
Definition indentLines (p : string) (text : string) : string :=
  concat_all (map (fun l => p ++ l) (textio.splitLines text)).

(** The annotation of a location: what [AnnotateLocation] writes into an
    empty buffer. *)
Definition annotationOf (fs : FileSystem) (loc : ErrorLocation) : string :=
  match AnnotateLocation fs loc (NewBuffer EmptyString) with
  | Returned (_, b) => bytes b
  | Panicked => EmptyString
  end.

(** The annotation of a location returns: its counts are not negative. *)
Definition annotates (fs : FileSystem) (loc : ErrorLocation) : Prop :=
  AnnotateLocation fs loc (NewBuffer EmptyString) <> Panicked.

(** The entry of a defined location in the narrative of an ambiguous
    reference. *)
Definition definedEntry (fs : FileSystem) (loc : ErrorLocation) : string :=
  "- " ++ FilePath loc ++ ":" ++ nl ++ indentLines "  " (annotationOf fs loc).

(** ** Sample files, locations and templates *)

Module Samples.

(** A source file of three lines, the second one blank. *)
Definition threeLines : File :=
  {| contents := "title" ++ nl ++ nl ++ "body" ++ nl; at_end := EOF |}.

(** A source file of one line. *)
Definition oneLine : File := {| contents := "title" ++ nl; at_end := EOF |}.

Definition noSuchFile (path : string) : error :=
  errorString ("open " ++ path ++ ": no such file or directory").

Definition permissionDenied (path : string) : error :=
  errorString ("open " ++ path ++ ": permission denied").

(** A source file of a thousand lines, all blank but the last. *)
Definition thousandLines : File :=
  {| contents := replicate 999 nl ++ "last" ++ nl; at_end := EOF |}.

(** [doc.lit], [one.lit] and [long.lit] exist; nothing else does. *)
Definition files : FileSystem :=
  fun path =>
    if String.eqb path "doc.lit" then Opens threeLines
    else if String.eqb path "one.lit" then Opens oneLine
    else if String.eqb path "long.lit" then Opens thousandLines
    else OpenFails (noSuchFile path).

(** No file can be opened: permission is denied. *)
Definition lockedFiles : FileSystem :=
  fun path => OpenFails (permissionDenied path).

Definition at_ (path : string) (line col length : Z) : ErrorLocation :=
  {| FilePath := path; NodeLocation := {| Line := line; Col := col |};
     Length := length |}.

Definition emptyBuffer : Buffer := NewBuffer EmptyString.

(** A template that shows the view it is given. *)
Definition showLine : Template :=
  {| run := fun data =>
       match data with
       | LineData d =>
           ([AD_Lineno d; if AD_EOF d then "<eof>" else "<line>";
             AD_Prefix d; "["; AD_Annotated d; "]"; AD_Suffix d], None)
       | ErrorData err => ([Error err], None)
       end |}.

(** A template that fails after its first piece of text. *)
Definition failing (msg : string) : Template :=
  {| run := fun _ => (["<html>"], Some (errorString msg)) |}.

(** The templates of the bundle under the names that [errors.go] looks up. *)
Definition bundle : TemplateSet :=
  map (fun name => (name, showLine))
    ["page.tmpl"; "annotated-line.tmpl"; "parse-error.tmpl"; "unknown-tag.tmpl";
     "ambiguous-reference.tmpl"; "undefined-function.tmpl";
     "function-error.tmpl"].

(** The same templates registered without the extension of their files. *)
Definition bareNames : TemplateSet :=
  map (fun name => (name, showLine))
    ["page"; "annotated-line"; "parse-error"; "unknown-tag";
     "ambiguous-reference"; "undefined-function"; "function-error"].

Definition boom : error := errorString "boom".

(** One diagnostic of every kind, at line 1 of [doc.lit]. *)
Definition oneOfEach : list PrettyError :=
  [ParseError boom (at_ "doc.lit" 1 1 5);
   UnknownTagError "intro" (at_ "doc.lit" 1 1 5);
   AmbiguousReferenceError "intro" [at_ "doc.lit" 3 1 4] (at_ "doc.lit" 1 1 5);
   UndefinedFunctionError "title" (at_ "doc.lit" 1 1 5);
   FailedFunctionError "title" boom (at_ "doc.lit" 1 1 5)].

(** One diagnostic of every kind, at line 3 of a file that is not there. *)
Definition unreadable : list PrettyError :=
  [ParseError boom (at_ "gone.lit" 3 1 5);
   UnknownTagError "intro" (at_ "gone.lit" 3 1 5);
   AmbiguousReferenceError "intro" [at_ "gone.lit" 7 1 4] (at_ "gone.lit" 3 1 5);
   UndefinedFunctionError "title" (at_ "gone.lit" 3 1 5);
   FailedFunctionError "title" boom (at_ "gone.lit" 3 1 5)].

End Samples.

Import Samples.

(** ** Notions used by the further properties *)

(** [l] without one final carriage return. *)
Definition stripCR (l : string) : string :=
  match bufio.unsnoc l with
  | Some (i, c) => if Ascii.eqb c CR then i else l
  | None => l
  end.

(** A text of lines, each ended by a line feed. *)
Definition joinLines (ls : list string) : string :=
  concat_all (map (fun l => l ++ nl) ls).

(** A line that holds no line feed and, with its line feed, fits the buffer
    of the reader. *)
Definition shortLine (l : string) : Prop :=
  contains LF l = false /\ (String.length l < bufio.defaultBufSize)%nat.

(** *** [template.HTMLEscapeString] and the template function ["error"] *)

Module html.

Definition quote : ascii := "034"%char.
Definition apostrophe : ascii := "039"%char.
Definition NUL : ascii := "000"%char.

(** What [HTMLEscape] writes for one byte: the NUL byte becomes the
    replacement character U+FFFD, in UTF-8. *)
Definition escapeByte (c : ascii) : string :=
  if Ascii.eqb c NUL then String "239" (String "191" (String "189" EmptyString))
  else if Ascii.eqb c quote then "&#34;"
  else if Ascii.eqb c apostrophe then "&#39;"
  else if Ascii.eqb c "&" then "&amp;"
  else if Ascii.eqb c "<" then "&lt;"
  else if Ascii.eqb c ">" then "&gt;"
  else String c EmptyString.

Fixpoint HTMLEscapeString (s : string) : string :=
  match s with
  | EmptyString => EmptyString
  | String c s' => escapeByte c ++ HTMLEscapeString s'
  end.

(** The opening tag of the raw rendering: [<pre class="raw-error">]. *)
Definition preOpen : string :=
  "<pre class=" ++ String quote ("raw-error" ++ String quote ">").

Definition preClose : string := "</pre>".

End html.

(** The template function ["error"] of [init]: a diagnostic is rendered by
    its [PrettyHTML] into a new buffer, every other error as its escaped
    message in a [pre] block. *)
Definition errorHTML (errorTmpl : TemplateSet) (err : error)
  : Outcome (string * option error) :=
  match err with
  | Pretty prettyErr =>
      r <- PrettyHTML errorTmpl prettyErr (NewBuffer EmptyString) ;;
      match r with
      | (Some renderErr, _) => Returned (EmptyString, Some renderErr)
      | (None, buf) => Returned (bytes buf, None)
      end
  | _ =>
      Returned
        (html.preOpen ++ html.HTMLEscapeString (Error err) ++ html.preClose, None)
  end.

(** What a template hands back when its execution into a new buffer is
    over: nothing and the error, or the text. *)
Definition rendered (r : list string * option error) : string * option error :=
  match snd r with
  | Some err => (EmptyString, Some err)
  | None => (concat_all (fst r), None)
  end.

(** The locations that [PrettyPrint] annotates: the one of the diagnostic
    and, for an ambiguous reference, the defined ones. *)
Definition allLocations (d : PrettyError) : list ErrorLocation :=
  location d
  :: match d with
     | AmbiguousReferenceError _ DefinedLocations _ => DefinedLocations
     | _ => []
     end.

Definition isAmbiguous (d : PrettyError) : bool :=
  match d with
  | AmbiguousReferenceError _ _ _ => true
  | _ => false
  end.

(** The line that [FailedFunctionError.PrettyPrint] writes after the
    annotation; the other kinds but the ambiguous reference write nothing
    there. *)
Definition trailer (d : PrettyError) : string :=
  match d with
  | FailedFunctionError _ Err _ => "error: " ++ Error Err ++ nl
  | _ => EmptyString
  end.

(** ** More sample files and sinks *)

Module MoreSamples.

(** A file of two lines ended the DOS way and a third one without a line
    end. *)
Definition dosLines : File :=
  {| contents := joinLines ["title" ++ String CR EmptyString;
                            "body" ++ String CR EmptyString] ++ "tail";
     at_end := EOF |}.

(** A file whose second line is longer than the buffer of the reader. *)
Definition wideLine : File :=
  {| contents := joinLines ["title"] ++ replicate bufio.defaultBufSize "x"
                 ++ ("yz" ++ nl ++ "body" ++ nl);
     at_end := EOF |}.

(** [dos.lit] and [wide.lit] only. *)
Definition moreFiles : FileSystem :=
  fun path =>
    if String.eqb path "dos.lit" then Opens dosLines
    else if String.eqb path "wide.lit" then Opens wideLine
    else OpenFails (noSuchFile path).

(** A device that gives one line and then fails. *)
Definition failingDevice : File :=
  {| contents := "title" ++ nl; at_end := errorString "input/output error" |}.

Definition device : FileSystem := fun _ => Opens failingDevice.

(** A sink with room for a number of bytes: a write that does not fit
    fails and writes nothing. *)
Record Limited : Type := { room : nat; taken : string }.

#[global] Instance Limited_Writer : Writer Limited :=
  fun p w =>
    if (String.length p <=? room w)%nat
    then (None, {| room := room w - String.length p; taken := taken w ++ p |})
    else (Some (errorString "short write"), w).

End MoreSamples.

Import MoreSamples.

(** * Properties *)

(** ** Facts about byte strings and [int] *)

Module StringFacts.

Lemma append_nil_r (s : string) : s ++ EmptyString = s.
Proof.
  induction s as [|c s IH]; simpl; [reflexivity | now rewrite IH].
Qed.

Lemma append_assoc (a b c : string) : (a ++ b) ++ c = a ++ (b ++ c).
Proof.
  induction a as [|x a IH]; simpl; [reflexivity | now rewrite IH].
Qed.

Lemma length_append (a b : string) :
  String.length (a ++ b) = (String.length a + String.length b)%nat.
Proof.
  induction a as [|x a IH]; simpl; [reflexivity | now rewrite IH].
Qed.

Lemma length_replicate_byte (n : nat) (c : ascii) :
  String.length (replicate n (String c EmptyString)) = n.
Proof.
  induction n as [|n IH]; simpl; [reflexivity | now rewrite IH].
Qed.

Lemma eqb_empty (s : string) :
  String.eqb s EmptyString = true <-> s = EmptyString.
Proof. apply String.eqb_eq. Qed.

End StringFacts.

Module IntFacts.

Import GoInt.

Lemma wrap_int (z : Z) : is_int z -> wrap z = z.
Proof.
  unfold is_int, min_int, max_int, wrap. intros Hz.
  rewrite Z.mod_small; lia.
Qed.

Lemma sub_exact (a b : Z) : is_int (a - b) -> sub a b = a - b.
Proof. apply wrap_int. Qed.

Lemma add_exact (a b : Z) : is_int (a + b) -> add a b = a + b.
Proof. apply wrap_int. Qed.

(** Wrapping once at the end is enough. *)
Lemma sub_add (a b c : Z) : sub (add a b) c = wrap (a + b - c).
Proof.
  unfold sub, add, wrap.
  replace ((a + b + 2 ^ 63) mod 2 ^ 64 - 2 ^ 63 - c + 2 ^ 63)
    with ((a + b + 2 ^ 63) mod 2 ^ 64 - c) by ring.
  rewrite Zminus_mod_idemp_l. do 2 f_equal. ring.
Qed.

Lemma add_sub (a b c : Z) : add (sub a b) c = wrap (a - b + c).
Proof.
  unfold sub, add, wrap.
  replace ((a - b + 2 ^ 63) mod 2 ^ 64 - 2 ^ 63 + c + 2 ^ 63)
    with ((a - b + 2 ^ 63) mod 2 ^ 64 + c) by ring.
  rewrite Zplus_mod_idemp_l. do 2 f_equal. ring.
Qed.

Lemma len_nonneg (s : string) : 0 <= len s.
Proof. unfold len. lia. Qed.

End IntFacts.

Lemma contains_append (c : ascii) (a b : string) :
  contains c (a ++ b) = contains c a || contains c b.
Proof.
  induction a as [|x a IH]; cbn [contains append]; [reflexivity|].
  now rewrite IH, orb_assoc.
Qed.

(** ** What [ReadLine] returns holds no line feed *)

Module ReadFacts.

Import bufio.

Lemma unsnoc_append_byte (s : string) (c : ascii) :
  unsnoc (s ++ String c EmptyString) = Some (s, c).
Proof.
  induction s as [|x s IH]; cbn [append unsnoc]; [reflexivity|].
  now rewrite IH.
Qed.

Lemma unsnoc_Some (s i : string) (c : ascii) :
  unsnoc s = Some (i, c) -> s = i ++ String c EmptyString.
Proof.
  revert i. induction s as [|x s IH]; intros i; cbn [unsnoc]; [discriminate|].
  destruct (unsnoc s) as [[i' c']|] eqn:Hs.
  - intros [= <- <-]. cbn [append]. f_equal. now apply IH.
  - intros [= <- <-]. destruct s; [reflexivity|].
    cbn [unsnoc] in Hs. destruct (unsnoc s) as [[? ?]|]; discriminate.
Qed.

Lemma contains_init (c : ascii) (s i : string) (l : ascii) :
  unsnoc s = Some (i, l) -> contains c s = false -> contains c i = false.
Proof.
  intros Hs Hc. apply unsnoc_Some in Hs. subst s.
  rewrite contains_append in Hc. now apply orb_false_elim in Hc.
Qed.

(** Up to the delimiter, [scan] returns bytes that are not the delimiter. *)
Lemma scan_LF (size : nat) :
  forall (s l r : string) (st : Stop),
    scan size s = (l, r, st) ->
    match st with
    | Found => exists l', l = l' ++ nl /\ contains LF l' = false
    | _ => contains LF l = false
    end.
Proof.
  induction size as [|size IH]; intros s l r st; cbn [scan].
  - intros [= <- <- <-]. reflexivity.
  - destruct s as [|c s].
    + intros [= <- <- <-]. reflexivity.
    + destruct (Ascii.eqb c LF) eqn:Hc.
      * intros [= <- <- <-]. apply Ascii.eqb_eq in Hc. subst c.
        exists EmptyString. split; reflexivity.
      * destruct (scan size s) as [[l0 r0] st0] eqn:Hs.
        intros [= <- <- <-]. specialize (IH _ _ _ _ Hs).
        rewrite Ascii.eqb_sym in Hc.
        destruct st0.
        -- destruct IH as [l' [-> Hl']]. exists (String c l').
           split; [reflexivity|]. cbn [contains]. now rewrite Hc.
        -- cbn [contains]. now rewrite Hc.
        -- cbn [contains]. now rewrite Hc.
Qed.

Lemma dropLineEnd_no_LF (l' : string) :
  contains LF l' = false -> contains LF (dropLineEnd (l' ++ nl)) = false.
Proof.
  intros Hl. unfold dropLineEnd, nl. rewrite unsnoc_append_byte.
  rewrite Ascii.eqb_refl.
  destruct (unsnoc l') as [[i c]|] eqn:Hu; [|assumption].
  destruct (Ascii.eqb c CR); [|assumption].
  now apply contains_init with (s := l') (l := c).
Qed.

Lemma ReadLine_no_LF (b b' : Reader) (line : string) (isPrefix : bool)
  (err : option error) :
  ReadLine b = ((line, isPrefix, err), b') -> contains LF line = false.
Proof.
  unfold ReadLine.
  destruct (scan defaultBufSize (unread b)) as [[l r] st] eqn:Hs.
  apply scan_LF in Hs. destruct st.
  - destruct Hs as [l' [-> Hl']]. intros [= <- _ _ _].
    now apply dropLineEnd_no_LF.
  - destruct (unsnoc l) as [[i c]|] eqn:Hu.
    + destruct (Ascii.eqb c CR).
      * intros [= <- _ _ _]. now apply contains_init with (s := l) (l := c).
      * now intros [= <- _ _ _].
    + now intros [= <- _ _ _].
  - destruct l.
    + now intros [= <- _ _ _].
    + now intros [= <- _ _ _].
Qed.

Lemma scan_split (size : nat) :
  forall (s l r : string) (st : Stop), scan size s = (l, r, st) -> s = l ++ r.
Proof.
  induction size as [|size IH]; intros s l r st; cbn [scan].
  - now intros [= <- <- <-].
  - destruct s as [|c s]; [now intros [= <- <- <-]|].
    destruct (Ascii.eqb c LF); [now intros [= <- <- <-]|].
    destruct (scan size s) as [[l0 r0] st0] eqn:Hs.
    intros [= <- <- <-]. cbn [append]. f_equal. now apply IH with (st := st0).
Qed.

Lemma scan_BufferFull (size : nat) :
  forall (s l r : string),
    scan size s = (l, r, BufferFull) -> String.length l = size.
Proof.
  induction size as [|size IH]; intros s l r; cbn [scan].
  - now intros [= <- <-].
  - destruct s as [|c s]; [discriminate|].
    destruct (Ascii.eqb c LF); [discriminate|].
    destruct (scan size s) as [[l0 r0] st0] eqn:Hs.
    intros [= <- <- ->]. cbn [String.length]. f_equal. now apply IH with (r := r0) (s := s).
Qed.

Lemma scan_Drained (size : nat) (s r : string) :
  scan (S size) s = (EmptyString, r, Drained) -> s = EmptyString.
Proof.
  cbn [scan]. destruct s as [|c s]; [reflexivity|].
  destruct (Ascii.eqb c LF); [discriminate|].
  destruct (scan size s) as [[l0 r0] st0]. discriminate.
Qed.

Lemma defaultBufSize_S : exists size, defaultBufSize = S (S size).
Proof. unfold defaultBufSize. eexists. reflexivity. Qed.

Lemma ReadLine_pending (b b' : Reader) (res : string * bool * option error) :
  ReadLine b = (res, b') -> pending b' = pending b.
Proof.
  unfold ReadLine.
  destruct (scan defaultBufSize (unread b)) as [[l r] st]. destruct st.
  - now intros [= _ <-].
  - destruct (unsnoc l) as [[i c]|]; [destruct (Ascii.eqb c CR)|];
      now intros [= _ <-].
  - destruct l; now intros [= _ <-].
Qed.

(** A call that returns a line consumes at least one byte. *)
Lemma ReadLine_progress (b b' : Reader) (line : string) (isPrefix : bool) :
  ReadLine b = ((line, isPrefix, None), b') ->
  (String.length (unread b') < String.length (unread b))%nat.
Proof.
  unfold ReadLine. destruct defaultBufSize_S as [size ->].
  destruct (scan (S (S size)) (unread b)) as [[l r] st] eqn:Hs.
  assert (Hsplit := scan_split _ _ _ _ _ Hs). rewrite Hsplit.
  rewrite StringFacts.length_append. destruct st.
  - apply scan_LF in Hs. destruct Hs as [l' [-> _]].
    intros [= _ _ <-]. cbn [unread].
    rewrite StringFacts.length_append. cbn [String.length nl]. lia.
  - apply scan_BufferFull in Hs. rewrite Hs.
    destruct (unsnoc l) as [[i c]|]; [destruct (Ascii.eqb c CR)|];
      intros [= _ _ <-]; cbn [unread String.length]; lia.
  - destruct l as [|c l]; [discriminate|].
    intros [= _ _ <-]. cbn [unread String.length]. lia.
Qed.

(** A call that fails returns the pending error, no line, and has nothing
    left to read. *)
Lemma ReadLine_error (b b' : Reader) (line : string) (isPrefix : bool)
  (e : error) :
  ReadLine b = ((line, isPrefix, Some e), b') ->
  e = pending b /\ line = EmptyString.
Proof.
  unfold ReadLine.
  destruct (scan defaultBufSize (unread b)) as [[l r] st]. destruct st.
  - discriminate.
  - destruct (unsnoc l) as [[i c]|]; [destruct (Ascii.eqb c CR)|]; discriminate.
  - destruct l; [|discriminate]. intros [= <- _ <- _]. now split.
Qed.

End ReadFacts.

Lemma lineInQuestion_no_LF (fs : FileSystem) (loc : ErrorLocation)
  (line : string) (err : option error) :
  lineInQuestion fs loc = (line, err) -> contains LF line = false.
Proof.
  unfold lineInQuestion.
  destruct (fs (FilePath loc)) as [e|file]; [now intros [= <- _]|].
  destruct (discardLines _ _) as [e|buf]; [now intros [= <- _]|].
  destruct (bufio.ReadLine buf) as [[[l p] e] buf'] eqn:Hr.
  apply ReadFacts.ReadLine_no_LF in Hr.
  destruct e as [e|].
  - destruct (is_EOF e); now intros [= <- _].
  - now intros [= <- _].
Qed.

(** ** Reading the line in question *)

(** The line after the last one is the empty string, and no error. *)
Example lineInQuestion_next_after_last :
  lineInQuestion files (at_ "one.lit" 2 1 1) = (EmptyString, None).
Proof. vm_compute. reflexivity. Qed.

(** C1. At a line two or more past the last one the end of the file is met
    in the loop that discards the preceding lines, and [lineInQuestion]
    returns [io.EOF] as an error: here line 3 of a file of one line. *)
Theorem lineInQuestion_eof_while_discarding :
  lineInQuestion files (at_ "one.lit" 3 1 1) = (EmptyString, Some EOF).
Proof. vm_compute. reflexivity. Qed.

(** The loop returns whatever error a read gives, the end of the file
    included. *)
Lemma discardLines_drained (n : nat) (e : error) :
  discardLines (S n) {| bufio.unread := EmptyString; bufio.pending := e |}
  = inl e.
Proof. reflexivity. Qed.

(** On an empty file, every line from the second on is reported as the
    error [io.EOF]. *)
Lemma lineInQuestion_empty_file (fs : FileSystem) (loc : ErrorLocation) :
  fs (FilePath loc) = Opens {| contents := EmptyString; at_end := EOF |} ->
  2 <= Line (NodeLocation loc) <= GoInt.max_int ->
  lineInQuestion fs loc = (EmptyString, Some EOF).
Proof.
  intros Hopen Hline. unfold lineInQuestion. rewrite Hopen.
  rewrite IntFacts.sub_exact
    by (unfold GoInt.is_int, GoInt.min_int, GoInt.max_int in *; lia).
  destruct (Z.to_nat (Line (NodeLocation loc) - 1)) as [|n] eqn:Hn; [lia|].
  unfold bufio.NewReader. simpl contents. simpl at_end.
  now rewrite discardLines_drained.
Qed.

(** ** [lineInQuestion], line by line *)

(** After [n] lines are discarded the reader stands before the lines that
    are left; when fewer than [n] can be read, the loop returns the error
    that ends the file. *)
Lemma discardLines_readLines (n : nat) :
  forall (fuel : nat) (b : bufio.Reader),
    (String.length (bufio.unread b) < fuel)%nat ->
    ((n <= List.length (readLines fuel b))%nat ->
     exists b' : bufio.Reader,
       discardLines n b = inr b'
       /\ bufio.pending b' = bufio.pending b
       /\ readLines (fuel - n) b' = skipn n (readLines fuel b)
       /\ (String.length (bufio.unread b') < fuel - n)%nat)
    /\ ((List.length (readLines fuel b) < n)%nat ->
        discardLines n b = inl (bufio.pending b)).
Proof.
  induction n as [|n IH]; intros fuel b Hfuel.
  - split; [|lia]. intros _. exists b. cbn [discardLines skipn].
    rewrite Nat.sub_0_r. repeat split. assumption.
  - destruct fuel as [|fuel]; [lia|].
    cbn [readLines discardLines].
    destruct (bufio.ReadLine b) as [[[line isPrefix] [e|]] b1] eqn:Hread.
    + apply ReadFacts.ReadLine_error in Hread as [-> _].
      split; [cbn [List.length]; lia | reflexivity].
    + assert (Hp := ReadFacts.ReadLine_pending _ _ _ Hread).
      apply ReadFacts.ReadLine_progress in Hread.
      destruct (IH fuel b1 ltac:(lia)) as [IH1 IH2].
      cbn [List.length skipn]. rewrite Nat.sub_succ. split.
      * intros Hn. destruct (IH1 ltac:(lia)) as [b' [Hd [Hp' [Hl Hu]]]].
        exists b'. repeat split; try assumption. congruence.
      * intros Hn. rewrite IH2 by lia. now rewrite Hp.
Qed.

Lemma skipn_nth (A : Type) (d : A) (l : list A) (n : nat) :
  (n < List.length l)%nat -> exists l', skipn n l = nth n l d :: l'.
Proof.
  revert n. induction l as [|x l IH]; intros n Hn; [cbn in Hn; lia|].
  destruct n as [|n]; cbn [skipn nth]; [now exists l|].
  apply IH. cbn in Hn. lia.
Qed.

(** What [lineInQuestion] returns for every line number from 1 on, in terms
    of the lines of the file: an existing line, then the empty string
    without an error when the file ends with [io.EOF], then the error that
    ends the file, [io.EOF] included. *)
Lemma lineInQuestion_lines (fs : FileSystem) (loc : ErrorLocation) (f : File) :
  fs (FilePath loc) = Opens f ->
  1 <= Line (NodeLocation loc) <= GoInt.max_int ->
  let n := Z.to_nat (Line (NodeLocation loc) - 1) in
  let lines := linesOf f in
  ((n < List.length lines)%nat ->
   lineInQuestion fs loc = (nth n lines EmptyString, None))
  /\ (n = List.length lines ->
      lineInQuestion fs loc
      = (EmptyString, if is_EOF (at_end f) then None else Some (at_end f)))
  /\ ((List.length lines < n)%nat ->
      lineInQuestion fs loc = (EmptyString, Some (at_end f))).
Proof.
  intros Hopen Hline n lines. unfold lineInQuestion. rewrite Hopen.
  rewrite IntFacts.sub_exact
    by (unfold GoInt.is_int, GoInt.min_int, GoInt.max_int in *; lia).
  fold n.
  destruct (discardLines_readLines n (S (String.length (contents f)))
              (bufio.NewReader f) ltac:(cbn [bufio.NewReader bufio.unread]; lia))
    as [Hle Hgt].
  fold (linesOf f) in Hle, Hgt. fold lines in Hle, Hgt.
  change (bufio.pending (bufio.NewReader f)) with (at_end f) in Hle, Hgt.
  split; [|split].
  - intros Hn. destruct (Hle ltac:(lia)) as [b' [-> [_ [Hl Hu]]]].
    destruct (skipn_nth _ EmptyString lines n Hn) as [rest Hrest].
    rewrite Hrest in Hl.
    destruct (S (String.length (contents f)) - n)%nat as [|fuel]; [discriminate|].
    cbn [readLines] in Hl.
    destruct (bufio.ReadLine b') as [[[line isPrefix] [e|]] b2]; [discriminate|].
    now injection Hl as -> _.
  - intros Hn. destruct (Hle ltac:(lia)) as [b' [-> [Hp [Hl Hu]]]].
    rewrite Hn, skipn_all in Hl. rewrite <- Hn in Hl.
    destruct (S (String.length (contents f)) - n)%nat as [|fuel]; [lia|].
    cbn [readLines] in Hl.
    destruct (bufio.ReadLine b') as [[[line isPrefix] [e|]] b2] eqn:Hread;
      [|discriminate].
    apply ReadFacts.ReadLine_error in Hread as [-> _]. rewrite Hp.
    now destruct (is_EOF (at_end f)).
  - intros Hn. now rewrite (Hgt Hn).
Qed.

(** With [N] lines in a file that ends with [io.EOF]: line [N + 1] is the
    empty string and no error, every line from [N + 2] on is the error
    [io.EOF]. *)
Corollary lineInQuestion_past_end (fs : FileSystem) (loc : ErrorLocation)
  (f : File) :
  fs (FilePath loc) = Opens f ->
  at_end f = EOF ->
  Line (NodeLocation loc) <= GoInt.max_int ->
  let N := Z.of_nat (List.length (linesOf f)) in
  (Line (NodeLocation loc) = N + 1 -> lineInQuestion fs loc = (EmptyString, None))
  /\ (N + 2 <= Line (NodeLocation loc) ->
      lineInQuestion fs loc = (EmptyString, Some EOF)).
Proof.
  intros Hopen Hend Hmax N. split; intros Hline.
  - destruct (lineInQuestion_lines fs loc f Hopen ltac:(lia)) as [_ [H _]].
    rewrite H by lia. now rewrite Hend.
  - destruct (lineInQuestion_lines fs loc f Hopen ltac:(lia)) as [_ [_ H]].
    rewrite H by lia. now rewrite Hend.
Qed.

(** ** The annotation split of [AnnotatedHTML] *)

Lemma window_exact (loc : ErrorLocation) :
  1 <= Col (NodeLocation loc) -> 0 <= Length loc ->
  Col (NodeLocation loc) - 1 + Length loc <= GoInt.max_int ->
  window loc = Col (NodeLocation loc) - 1 + Length loc.
Proof.
  intros Hc Hl Hs. unfold window.
  rewrite IntFacts.sub_exact.
  - apply IntFacts.add_exact. unfold GoInt.is_int, GoInt.min_int in *. lia.
  - unfold GoInt.is_int, GoInt.min_int in *. lia.
Qed.

(** The guard of the split: a window beyond the line leaves the three parts
    of the view as they were declared. *)
Lemma annotationData_guard (loc : ErrorLocation) (line : string) :
  len line < window loc ->
  exists d, annotationData loc line = Returned d /\ emptySplit d.
Proof.
  intros Hw. unfold annotationData. fold (window loc).
  destruct (len line >=? window loc) eqn:Hg.
  - apply Z.geb_le in Hg. lia.
  - eexists. split; [reflexivity|]. repeat split.
Qed.

(** C4, as the code has it. When the window [(Col - 1) + Length] of a
    location, with [Col >= 1] and [Length >= 0], fits an [int] and exceeds
    the length of the source line, the split of [AnnotatedHTML] returns,
    without panicking, a view whose prefix, annotated part and suffix are
    the three empty strings. *)
Theorem annotationData_window_exceeds (loc : ErrorLocation) (line : string) :
  1 <= Col (NodeLocation loc) ->
  0 <= Length loc ->
  Col (NodeLocation loc) - 1 + Length loc <= GoInt.max_int ->
  len line < Col (NodeLocation loc) - 1 + Length loc ->
  exists d, annotationData loc line = Returned d /\ emptySplit d.
Proof.
  intros Hc Hl Hs Hw.
  apply annotationData_guard. now rewrite window_exact.
Qed.

(** An instance: column 4 and length 5 on the five bytes of [title]. *)
Lemma annotationData_window_exceeds_witness :
  exists d,
    annotationData
      {| FilePath := "doc.lit"; NodeLocation := {| Line := 3; Col := 4 |};
         Length := 5 |} "title" = Returned d
    /\ emptySplit d.
Proof.
  apply annotationData_window_exceeds.
  - simpl. lia.
  - simpl. lia.
  - vm_compute. discriminate.
  - vm_compute. reflexivity.
Defined.

(** C4, as stated, fails. At column 2 and the largest length the window
    [(Col - 1) + Length] exceeds the four bytes of [body], but it does not
    fit an [int]: the sum that the guard computes wraps to the least [int],
    the guard lets it through and the second slice expression is out of
    range. *)
Lemma annotationData_window_overflow :
  let loc := {| FilePath := "doc.lit"; NodeLocation := {| Line := 3; Col := 2 |};
                Length := GoInt.max_int |} in
  1 <= Col (NodeLocation loc)
  /\ 0 <= Length loc
  /\ len "body" < Col (NodeLocation loc) - 1 + Length loc
  /\ window loc = GoInt.min_int
  /\ annotationData loc "body" = Panicked.
Proof. vm_compute. repeat split; discriminate. Qed.

(** In range, the three parts are the pieces of the line. *)
Lemma annotationData_in_range (loc : ErrorLocation) (line : string) :
  1 <= Col (NodeLocation loc) ->
  0 <= Length loc ->
  Col (NodeLocation loc) - 1 + Length loc <= len line ->
  len line <= GoInt.max_int ->
  exists d,
    annotationData loc line = Returned d
    /\ AD_Prefix d =
         substring 0 (Z.to_nat (Col (NodeLocation loc) - 1)) line
    /\ AD_Annotated d =
         substring (Z.to_nat (Col (NodeLocation loc) - 1))
           (Z.to_nat (Length loc)) line
    /\ AD_Suffix d =
         substring (Z.to_nat (Col (NodeLocation loc) - 1 + Length loc))
           (Z.to_nat (len line - (Col (NodeLocation loc) - 1 + Length loc)))
           line.
Proof.
  intros Hc Hl Hs Hm.
  assert (Hw : window loc = Col (NodeLocation loc) - 1 + Length loc)
    by (apply window_exact; lia).
  assert (Ho : GoInt.sub (Col (NodeLocation loc)) 1 = Col (NodeLocation loc) - 1).
  { apply IntFacts.sub_exact. unfold GoInt.is_int, GoInt.min_int. lia. }
  unfold annotationData. fold (window loc). rewrite Hw, Ho.
  destruct (len line >=? _) eqn:Hg; [|rewrite Z.geb_leb in Hg; apply Z.leb_gt in Hg; lia].
  unfold slice_from, slice.
  repeat match goal with
         | |- context [?a <=? ?b] =>
             let H := fresh in
             destruct (a <=? b) eqn:H;
             [clear H | apply Z.leb_gt in H; lia]
         end.
  simpl. eexists. split; [reflexivity|]. simpl.
  repeat split.
  - now rewrite Z.sub_0_r.
  - f_equal. f_equal. lia.
Qed.

(** A sum that does not fit an [int] wraps, and the guard compares the
    wrapped sum: at the largest column and length the window is negative,
    the guard holds and the first slice expression is out of range. *)
Example window_wraps :
  window (at_ "doc.lit" 3 GoInt.max_int GoInt.max_int) = -3
  /\ annotationData (at_ "doc.lit" 3 GoInt.max_int GoInt.max_int) "body"
     = Panicked.
Proof. vm_compute. split; reflexivity. Qed.

(** ** The end-of-file flag of the annotated view *)

(** C3. Line 2 of [doc.lit] is in range and blank: [lineInQuestion] returns
    the empty string for it, as it does past the end of the file, and the
    view that [AnnotatedHTML] hands to the template has [EOF] set. *)
Theorem AnnotatedHTML_blank_line_flagged_EOF :
  lineInQuestion files (at_ "doc.lit" 2 1 0) = (EmptyString, None)
  /\ (exists d, annotationData (at_ "doc.lit" 2 1 0) EmptyString = Returned d
                /\ AD_EOF d = true)
  /\ AnnotatedHTML files [("annotated-line.tmpl", showLine)]
       (at_ "doc.lit" 2 1 0) emptyBuffer
     = Returned (None, NewBuffer "   2<eof>[]").
Proof.
  split; [vm_compute; reflexivity|].
  split; [eexists; split; [vm_compute; reflexivity | reflexivity]|].
  vm_compute. reflexivity.
Qed.

(** The flag is set exactly when the line read is empty. *)
Lemma annotationData_EOF (loc : ErrorLocation) (line : string) (d : AnnotationData) :
  annotationData loc line = Returned d ->
  (AD_EOF d = true <-> line = EmptyString).
Proof.
  unfold annotationData. intros H.
  assert (He : AD_EOF d = if String.eqb line EmptyString then true else false).
  { destruct (len line >=? _).
    - destruct (slice line 0 _); [|discriminate].
      destruct (slice line _ _); [|discriminate].
      destruct (slice_from line _); [|discriminate].
      simpl in H. now inversion H.
    - now inversion H. }
  rewrite He. destruct (String.eqb line EmptyString) eqn:E.
  - apply String.eqb_eq in E. tauto.
  - apply String.eqb_neq in E. split; [discriminate | tauto].
Qed.

(** An existing line that is blank is flagged as the end of the file. *)
Corollary blank_line_flagged_EOF (fs : FileSystem) (loc : ErrorLocation)
  (f : File) :
  fs (FilePath loc) = Opens f ->
  1 <= Line (NodeLocation loc) <= Z.of_nat (List.length (linesOf f)) ->
  Line (NodeLocation loc) <= GoInt.max_int ->
  nth (Z.to_nat (Line (NodeLocation loc) - 1)) (linesOf f) "x" = EmptyString ->
  forall d : AnnotationData,
    annotationData loc (fst (lineInQuestion fs loc)) = Returned d ->
    AD_EOF d = true.
Proof.
  intros Hopen Hline Hmax Hblank d Hd.
  destruct (lineInQuestion_lines fs loc f Hopen ltac:(lia)) as [H _].
  rewrite H in Hd by lia. cbn [fst] in Hd.
  apply (annotationData_EOF loc _ d Hd).
  rewrite (nth_indep _ EmptyString "x") by lia. assumption.
Qed.

(** ** The first line of the plain narrative *)

Lemma doPrintf_nil_plain (format : string) :
  contains "%" format = false ->
  forall fuel, (String.length format <= fuel)%nat ->
  fmt.doPrintf_nil fuel format = format.
Proof.
  induction format as [|c format IH]; intros Hc fuel Hf.
  - destruct fuel; reflexivity.
  - cbn [contains] in Hc. apply orb_false_elim in Hc as [Hc1 Hc2].
    destruct fuel as [|fuel]; [simpl in Hf; lia|].
    cbn [fmt.doPrintf_nil]. rewrite Ascii.eqb_sym, Hc1.
    rewrite IH; [reflexivity | assumption | simpl in Hf; lia].
Qed.

(** A text without a percent sign is its own output as a format. *)
Lemma Sprintf_nil_plain (format : string) :
  contains "%" format = false -> fmt.Sprintf_nil format = format.
Proof.
  intros Hc. unfold fmt.Sprintf_nil. now apply doPrintf_nil_plain.
Qed.

(** Without a percent sign in the path and in the message, the narrative of a
    parse error starts with its first line as [Annotate] built it. *)
Lemma PrettyPrint_ParseError_plain (fs : FileSystem) (Err : error)
  (loc : ErrorLocation) (out : Buffer) :
  contains "%" (firstLine (ParseError Err loc)) = false ->
  PrettyPrint fs (ParseError Err loc) out
  = (r <- AnnotateLocation fs loc
            (NewBuffer (bytes out ++ firstLine (ParseError Err loc))) ;;
     Returned (snd r)).
Proof.
  intros Hc. unfold PrettyPrint, Fprintf_nil, Write, Buffer_Writer.
  fold (firstLine (ParseError Err loc)).
  now rewrite Sprintf_nil_plain.
Qed.

(** C6. A parse error whose message holds a format verb: the first line is
    scanned as a format once more, and the verb comes out as a missing
    operand; the line written is not the prefix followed by
    ["parse error: <message>"]. The same happens to a percent sign of the
    file path. *)
Theorem PrettyPrint_percent_in_first_line :
  let d := ParseError (errorString "unexpected token %d") (at_ "doc.lit" 0 0 0) in
  let d' := ParseError (errorString "bad tag") (at_ "50%off.lit" 0 0 0) in
  firstLine d = "doc.lit: parse error: unexpected token %d" ++ nl ++ nl
  /\ PrettyPrint files d emptyBuffer
     = Returned
         (NewBuffer ("doc.lit: parse error: unexpected token %!d(MISSING)"
                     ++ nl ++ nl))
  /\ firstLine d' = "50%off.lit: parse error: bad tag" ++ nl ++ nl
  /\ PrettyPrint files d' emptyBuffer
     = Returned
         (NewBuffer ("50%!o(MISSING)ff.lit: parse error: bad tag" ++ nl ++ nl)).
Proof. vm_compute. repeat split. Qed.

(** ** The two rows written by [AnnotateLocation] *)

Module RowFacts.

Import StringFacts.

Lemma contains_replicate_byte (c x : ascii) (n : nat) :
  Ascii.eqb c x = false -> contains c (replicate n (String x EmptyString)) = false.
Proof.
  intros Hc. induction n as [|n IH]; cbn [replicate append contains];
    [reflexivity | now rewrite Hc].
Qed.

Lemma string_of_uint_no_LF (u : Decimal.uint) :
  contains LF (NilEmpty.string_of_uint u) = false.
Proof.
  induction u; cbn [NilEmpty.string_of_uint contains]; try reflexivity;
    rewrite IHu; reflexivity.
Qed.

Lemma digits_no_LF (n : N) : contains LF (fmt.digits n) = false.
Proof.
  unfold fmt.digits, NilZero.string_of_uint.
  destruct (N.to_uint n) eqn:Hu; try reflexivity;
    rewrite <- Hu; apply string_of_uint_no_LF.
Qed.

Lemma padLeft_no_LF (width : nat) (s : string) :
  contains LF s = false -> contains LF (fmt.padLeft width s) = false.
Proof.
  intros Hs. unfold fmt.padLeft. rewrite contains_append, Hs.
  now rewrite contains_replicate_byte.
Qed.

Lemma gutter_no_LF (loc : ErrorLocation) : contains LF (gutter loc) = false.
Proof.
  unfold gutter, fmt.verb_space4d. apply padLeft_no_LF.
  rewrite contains_append, digits_no_LF.
  now destruct (Line (NodeLocation loc) <? 0).
Qed.

Lemma length_padLeft (width : nat) (s : string) :
  String.length (fmt.padLeft width s) = Nat.max width (String.length s).
Proof.
  unfold fmt.padLeft. rewrite length_append, length_replicate_byte. lia.
Qed.

(** The gutter of a line number that is not negative: a blank for the
    sign, the digits, and blanks before them up to four columns. *)
Lemma gutter_nonneg (loc : ErrorLocation) :
  0 <= Line (NodeLocation loc) ->
  gutter loc = fmt.padLeft 4 (" " ++ fmt.digits (Z.to_N (Line (NodeLocation loc)))).
Proof.
  intros Hl. unfold gutter, fmt.verb_space4d.
  destruct (Line (NodeLocation loc) <? 0) eqn:Hn; [apply Z.ltb_lt in Hn; lia|].
  do 3 f_equal. destruct (Line (NodeLocation loc)); try reflexivity. lia.
Qed.

Lemma splitLines_first (a b : string) :
  contains LF a = false ->
  textio.splitLines (a ++ nl ++ b) = (a ++ nl) :: textio.splitLines b.
Proof.
  intros Ha. induction a as [|c a IH].
  - cbn [append nl textio.splitLines]. now rewrite Ascii.eqb_refl.
  - cbn [contains] in Ha. apply orb_false_elim in Ha as [Hc Ha].
    cbn [append textio.splitLines]. rewrite Ascii.eqb_sym, Hc.
    now rewrite (IH Ha).
Qed.

Lemma caretRow_no_LF (pad carets : nat) :
  contains LF (replicate pad " " ++ red ++ replicate carets "^" ++ reset) = false.
Proof.
  rewrite !contains_append, !contains_replicate_byte; reflexivity.
Qed.

(** An annotation is two lines. *)
Lemma splitLines_rows (loc : ErrorLocation) (line : string) (pad carets : nat) :
  contains LF line = false ->
  textio.splitLines (gutterRow loc line ++ caretRow pad carets)
  = [gutterRow loc line; caretRow pad carets].
Proof.
  intros Hline. unfold gutterRow, caretRow.
  replace ((gutter loc ++ "| " ++ line ++ nl)
           ++ replicate pad " " ++ red ++ replicate carets "^" ++ reset ++ nl)
    with ((gutter loc ++ "| " ++ line) ++ nl
          ++ (replicate pad " " ++ red ++ replicate carets "^" ++ reset)
          ++ nl ++ EmptyString)
    by (rewrite !append_assoc, append_nil_r; reflexivity).
  rewrite splitLines_first.
  - rewrite splitLines_first by apply caretRow_no_LF.
    rewrite !append_assoc. reflexivity.
  - rewrite !contains_append, gutter_no_LF, Hline. reflexivity.
Qed.

Lemma padWidth_exact (loc : ErrorLocation) :
  1 <= Col (NodeLocation loc) ->
  len (gutter loc) + 2 + Col (NodeLocation loc) - 1 <= GoInt.max_int ->
  padWidth loc = len (gutter loc) + 2 + Col (NodeLocation loc) - 1.
Proof.
  intros Hc Hm. unfold padWidth.
  assert (Hp : len (gutter loc ++ "| ") = len (gutter loc) + 2).
  { unfold len. rewrite length_append. cbn [String.length]. lia. }
  rewrite Hp.
  assert (H0 := IntFacts.len_nonneg (gutter loc)).
  rewrite IntFacts.sub_add. apply IntFacts.wrap_int.
  unfold GoInt.is_int, GoInt.min_int in *. lia.
Qed.

End RowFacts.

(** On a buffer, with counts that are not negative, [AnnotateLocation]
    appends the two rows. *)
Lemma AnnotateLocation_Buffer (fs : FileSystem) (loc : ErrorLocation)
  (line : string) (out : Buffer) :
  Line (NodeLocation loc) <> 0 ->
  lineInQuestion fs loc = (line, None) ->
  0 <= padWidth loc ->
  0 <= Length loc ->
  AnnotateLocation fs loc out
  = Returned
      (None,
       NewBuffer (bytes out ++ gutterRow loc line
                  ++ caretRow (Z.to_nat (padWidth loc)) (Z.to_nat (Length loc)))).
Proof.
  intros Hl Hr Hp Hn. unfold AnnotateLocation.
  apply Z.eqb_neq in Hl. rewrite Hl, Hr.
  unfold Fprintf, Write, Buffer_Writer. fold (gutter loc). fold (padWidth loc).
  unfold Repeat.
  destruct (padWidth loc <? 0) eqn:E1; [apply Z.ltb_lt in E1; lia|].
  destruct (Length loc <? 0) eqn:E2; [apply Z.ltb_lt in E2; lia|].
  cbn [bindO bytes]. unfold gutterRow, caretRow.
  rewrite !StringFacts.append_assoc. reflexivity.
Qed.

(** C5, as the code has it. For a location with [Line >= 1], [Col >= 1] and
    [Length >= 0] whose line is read, and whose padding count (the width of
    the gutter, plus 2, plus [Col - 1]) and length are at most [modestSize],
    [AnnotateLocation] writes two lines. The first is the gutter, the
    literal ["| "] and the line as read; the gutter is the line number after
    at least one blank, right-aligned in four columns, so it is wider than
    four as soon as the number has more than three digits. The second is as
    many blanks as the padding count, then [Length] carets between the ANSI
    red and reset sequences. *)
Theorem AnnotateLocation_two_rows (fs : FileSystem) (loc : ErrorLocation)
  (line : string) (out : Buffer) :
  1 <= Line (NodeLocation loc) ->
  1 <= Col (NodeLocation loc) ->
  0 <= Length loc <= modestSize ->
  len (gutter loc) + 2 + Col (NodeLocation loc) - 1 <= modestSize ->
  lineInQuestion fs loc = (line, None) ->
  let pad :=
    (String.length (gutter loc) + 2 + Z.to_nat (Col (NodeLocation loc) - 1))%nat in
  let carets := Z.to_nat (Length loc) in
  AnnotateLocation fs loc out
  = Returned
      (None, NewBuffer (bytes out ++ gutterRow loc line ++ caretRow pad carets))
  /\ textio.splitLines (gutterRow loc line ++ caretRow pad carets)
     = [gutter loc ++ "| " ++ line ++ nl;
        replicate pad " " ++ red ++ replicate carets "^" ++ reset ++ nl]
  /\ gutter loc
     = fmt.padLeft 4 (" " ++ fmt.digits (Z.to_N (Line (NodeLocation loc))))
  /\ String.length (gutter loc)
     = Nat.max 4 (1 + String.length (fmt.digits (Z.to_N (Line (NodeLocation loc))))).
Proof.
  intros Hline Hcol Hlen Hsize Hread pad carets.
  assert (Hmax : len (gutter loc) + 2 + Col (NodeLocation loc) - 1
                 <= GoInt.max_int)
    by (unfold modestSize, GoInt.max_int in *; lia).
  assert (Hpad : padWidth loc = Z.of_nat pad).
  { rewrite RowFacts.padWidth_exact by assumption. unfold pad, len. lia. }
  split; [|split; [|split]].
  - rewrite (AnnotateLocation_Buffer fs loc line out); try assumption; try lia.
    now rewrite Hpad, Nat2Z.id.
  - apply RowFacts.splitLines_rows. now apply lineInQuestion_no_LF in Hread.
  - apply RowFacts.gutter_nonneg. lia.
  - rewrite RowFacts.gutter_nonneg by lia. now rewrite RowFacts.length_padLeft.
Qed.

(** An instance: line 3, column 2, length 3 of [doc.lit]. *)
Lemma AnnotateLocation_two_rows_witness :
  let loc := at_ "doc.lit" 3 2 3 in
  AnnotateLocation files loc emptyBuffer
  = Returned
      (None,
       NewBuffer (bytes emptyBuffer ++ gutterRow loc "body"
                  ++ caretRow (String.length (gutter loc) + 2 + Z.to_nat (2 - 1))
                       (Z.to_nat 3)))
  /\ textio.splitLines
       (gutterRow loc "body"
        ++ caretRow (String.length (gutter loc) + 2 + Z.to_nat (2 - 1)) (Z.to_nat 3))
     = [gutter loc ++ "| " ++ "body" ++ nl;
        replicate (String.length (gutter loc) + 2 + Z.to_nat (2 - 1)) " " ++ red
        ++ replicate (Z.to_nat 3) "^" ++ reset ++ nl]
  /\ gutter loc = fmt.padLeft 4 (" " ++ fmt.digits (Z.to_N 3))
  /\ String.length (gutter loc)
     = Nat.max 4 (1 + String.length (fmt.digits (Z.to_N 3))).
Proof.
  apply (AnnotateLocation_two_rows files (at_ "doc.lit" 3 2 3) "body" emptyBuffer).
  - simpl. lia.
  - simpl. lia.
  - vm_compute. split; discriminate.
  - vm_compute. discriminate.
  - vm_compute. reflexivity.
Defined.

(** Outside of these conditions the second row may not be written: with a
    negative length, or with a column so large that the padding count does
    not fit an [int], [strings.Repeat] panics. *)
Example AnnotateLocation_panics :
  AnnotateLocation files (at_ "doc.lit" 3 2 (-1)) emptyBuffer = Panicked
  /\ AnnotateLocation files (at_ "doc.lit" 3 GoInt.max_int 1) emptyBuffer
     = Panicked.
Proof. vm_compute. split; reflexivity. Qed.

(** Line 3, column 2, length 3 of [doc.lit], as written. *)
Example AnnotateLocation_line_3 :
  AnnotateLocation files (at_ "doc.lit" 3 2 3) emptyBuffer
  = Returned
      (None,
       NewBuffer ("   3| body" ++ nl ++ "       " ++ red ++ "^^^" ++ reset ++ nl)).
Proof. vm_compute. reflexivity. Qed.

(** C5, as stated, fails. Line 1000 needs four digits, not more, and its
    gutter is five columns wide: the blank of the elided sign comes before
    the digits. What is written does not start with the number in four
    columns followed by ["| "], whatever comes after. *)
Lemma gutter_of_line_1000 :
  AnnotateLocation files (at_ "long.lit" 1000 2 3) emptyBuffer
  = Returned
      (None,
       NewBuffer (" 1000| last" ++ nl ++ "        " ++ red ++ "^^^" ++ reset ++ nl))
  /\ fmt.verb_d 1000 = "1000"
  /\ claimedGutter 1000 = "1000"
  /\ String.length (gutter (at_ "long.lit" 1000 2 3)) = 5%nat
  /\ forall (w : Buffer) (rest : string),
       AnnotateLocation files (at_ "long.lit" 1000 2 3) emptyBuffer
       = Returned (None, w) ->
       bytes w <> claimedGutter 1000 ++ "| " ++ rest.
Proof.
  assert (Hw : AnnotateLocation files (at_ "long.lit" 1000 2 3) emptyBuffer
               = Returned
                   (None,
                    NewBuffer (" 1000| last" ++ nl ++ "        " ++ red ++ "^^^"
                               ++ reset ++ nl)))
    by (vm_compute; reflexivity).
  split; [exact Hw|].
  split; [vm_compute; reflexivity|].
  split; [vm_compute; reflexivity|].
  split; [vm_compute; reflexivity|].
  intros w rest Hout. rewrite Hw in Hout. injection Hout as <-.
  cbn [bytes]. discriminate.
Qed.

(** ** Spans beyond the end of the line *)

(** C10, as the code has it. For a location with [Line >= 1], [Col >= 1]
    and [Length >= 0], whose padding count (the width of the gutter, plus
    2, plus [Col - 1]) and length are at most [modestSize] and whose window
    [(Col - 1) + Length] exceeds the length of the line read,
    [AnnotateLocation] still writes the second row with exactly [Length]
    carets, and the run ends beyond the end of the displayed line; the split
    of [AnnotatedHTML] gives three empty strings for the same location. The
    guard is in the hypertext path only. *)
Theorem AnnotateLocation_carets_beyond_line (fs : FileSystem)
  (loc : ErrorLocation) (line : string) (out : Buffer) :
  1 <= Line (NodeLocation loc) ->
  1 <= Col (NodeLocation loc) ->
  0 <= Length loc <= modestSize ->
  len (gutter loc) + 2 + Col (NodeLocation loc) - 1 <= modestSize ->
  lineInQuestion fs loc = (line, None) ->
  len line < Col (NodeLocation loc) - 1 + Length loc ->
  let pad :=
    (String.length (gutter loc) + 2 + Z.to_nat (Col (NodeLocation loc) - 1))%nat in
  let carets := Z.to_nat (Length loc) in
  AnnotateLocation fs loc out
  = Returned
      (None,
       NewBuffer (bytes out ++ (gutter loc ++ "| " ++ line ++ nl)
                  ++ (replicate pad " " ++ red ++ replicate carets "^" ++ reset
                      ++ nl)))
  /\ Z.of_nat carets = Length loc
  /\ (String.length (gutter loc ++ "| " ++ line) < pad + carets)%nat
  /\ exists d, annotationData loc line = Returned d /\ emptySplit d.
Proof.
  intros Hline Hcol Hlen Hsize Hread Hwin pad carets.
  assert (H0 := IntFacts.len_nonneg (gutter loc)).
  assert (Hmax : len (gutter loc) + 2 + Col (NodeLocation loc) - 1
                 <= GoInt.max_int)
    by (unfold modestSize, GoInt.max_int in *; lia).
  assert (Hsum : Col (NodeLocation loc) - 1 + Length loc <= GoInt.max_int)
    by (unfold modestSize, GoInt.max_int in *; lia).
  assert (Hpad : padWidth loc = Z.of_nat pad).
  { rewrite RowFacts.padWidth_exact by assumption. unfold pad, len. lia. }
  split; [|split; [|split]].
  - rewrite (AnnotateLocation_Buffer fs loc line out); try assumption; try lia.
    now rewrite Hpad, Nat2Z.id.
  - unfold carets. lia.
  - rewrite !StringFacts.length_append. cbn [String.length].
    unfold pad, carets, len in *. lia.
  - apply annotationData_guard. rewrite window_exact; lia.
Qed.

(** An instance: column 4 and length 5 on the four bytes of [body]. *)
Lemma AnnotateLocation_carets_beyond_line_witness :
  let loc := at_ "doc.lit" 3 4 5 in
  AnnotateLocation files loc emptyBuffer
  = Returned
      (None,
       NewBuffer (bytes emptyBuffer ++ (gutter loc ++ "| " ++ "body" ++ nl)
                  ++ (replicate (String.length (gutter loc) + 2 + Z.to_nat (4 - 1))
                        " "
                      ++ red ++ replicate (Z.to_nat 5) "^" ++ reset ++ nl)))
  /\ Z.of_nat (Z.to_nat 5) = 5
  /\ (String.length (gutter loc ++ "| " ++ "body")
      < String.length (gutter loc) + 2 + Z.to_nat (4 - 1) + Z.to_nat 5)%nat
  /\ exists d, annotationData loc "body" = Returned d /\ emptySplit d.
Proof.
  apply (AnnotateLocation_carets_beyond_line files (at_ "doc.lit" 3 4 5) "body"
           emptyBuffer).
  - simpl. lia.
  - simpl. lia.
  - vm_compute. split; discriminate.
  - vm_compute. discriminate.
  - vm_compute. reflexivity.
  - vm_compute. reflexivity.
Defined.

(** C10, as stated, fails. On the four bytes of line 3 of [doc.lit], the
    window of column 10 with the length -1, and the window of the largest
    column with the length 1, exceed the line; in both cases
    [AnnotateLocation] writes no second row: [strings.Repeat] panics on the
    negative length, and on the padding count that has wrapped below 0. *)
Lemma AnnotateLocation_window_beyond_line_panics :
  lineInQuestion files (at_ "doc.lit" 3 10 (-1)) = ("body", None)
  /\ len "body" < 10 - 1 + -1
  /\ AnnotateLocation files (at_ "doc.lit" 3 10 (-1)) emptyBuffer = Panicked
  /\ lineInQuestion files (at_ "doc.lit" 3 GoInt.max_int 1) = ("body", None)
  /\ len "body" < GoInt.max_int - 1 + 1
  /\ AnnotateLocation files (at_ "doc.lit" 3 GoInt.max_int 1) emptyBuffer
     = Panicked.
Proof. vm_compute. repeat split; reflexivity. Qed.

(** Column 4, length 5 on the line [body]: five carets in the plain
    rendering, nothing marked in the view of the hypertext one. *)
Example renderings_of_a_span_beyond_the_line :
  AnnotateLocation files (at_ "doc.lit" 3 4 5) emptyBuffer
  = Returned
      (None,
       NewBuffer ("   3| body" ++ nl ++ "         " ++ red ++ "^^^^^" ++ reset
                  ++ nl))
  /\ AnnotatedHTML files bundle (at_ "doc.lit" 3 4 5) emptyBuffer
     = Returned (None, NewBuffer "   3<line>[]").
Proof. vm_compute. split; reflexivity. Qed.

(** ** Failures of the annotation in the plain rendering *)

(** [PrettyPrint] in three steps: the first line, the annotation of the
    location of the diagnostic, whose error is dropped, and the rest. *)
Lemma PrettyPrint_steps {W : Type} `{Writer W} (fs : FileSystem)
  (d : PrettyError) (out : W) :
  PrettyPrint fs d out
  = (r <- AnnotateLocation fs (location d) (snd (Fprintf_nil out (firstLine d))) ;;
     afterAnnotation fs d (snd r)).
Proof.
  destruct d; unfold PrettyPrint, firstLine, afterAnnotation, location;
    match goal with
    | |- context [Fprintf_nil out ?f] => destruct (Fprintf_nil out f) as [e1 out1]
    end;
    cbn [snd];
    match goal with
    | |- context [AnnotateLocation fs ?l ?o] =>
        destruct (AnnotateLocation fs l o) as [[e2 out2]|]
    end;
    cbn [bindO snd]; try reflexivity.
  - destruct (Fprintf_nil out2 _) as [e3 out3]. cbn [snd].
    destruct (printDefinedLocations fs DefinedLocations out3) as [out4|];
      cbn [bindO]; [|reflexivity].
    now destruct (Fprintf_nil out4 _).
  - now destruct (Fprintf out2 _).
Qed.

(** A failure to open or to read the file comes back from
    [AnnotateLocation], and nothing is written. *)
Lemma AnnotateLocation_read_failure {W : Type} `{Writer W} (fs : FileSystem)
  (loc : ErrorLocation) (out : W) (s : string) (e : error) :
  Line (NodeLocation loc) <> 0 ->
  lineInQuestion fs loc = (s, Some e) ->
  AnnotateLocation fs loc out = Returned (Some e, out).
Proof.
  intros Hl Hr. unfold AnnotateLocation.
  apply Z.eqb_neq in Hl. now rewrite Hl, Hr.
Qed.

(** C2, as the code has it. When the file cannot be opened or a read fails,
    [AnnotateLocation] returns that failure to its caller, for every sink,
    and writes nothing. [PrettyPrint], for every kind, has no error result:
    it drops the failure and goes on with the rest of its narrative, as
    written after the first line without a snippet. *)
Theorem PrettyPrint_drops_read_failure {W : Type} `{Writer W}
  (fs : FileSystem) (d : PrettyError) (out : W) (s : string) (e : error) :
  Line (NodeLocation (location d)) <> 0 ->
  lineInQuestion fs (location d) = (s, Some e) ->
  (forall out' : W,
      AnnotateLocation fs (location d) out' = Returned (Some e, out'))
  /\ PrettyPrint fs d out
     = afterAnnotation fs d (snd (Fprintf_nil out (firstLine d))).
Proof.
  intros Hl Hr. split.
  - intros out'. now apply AnnotateLocation_read_failure with (s := s).
  - rewrite PrettyPrint_steps.
    now rewrite (AnnotateLocation_read_failure fs _ _ s e Hl Hr).
Qed.

(** An instance: a failed function at line 3 of a file that is not there. *)
Lemma PrettyPrint_drops_read_failure_witness :
  (forall out' : Buffer,
      AnnotateLocation files (at_ "gone.lit" 3 1 5) out'
      = Returned (Some (noSuchFile "gone.lit"), out'))
  /\ PrettyPrint files (FailedFunctionError "title" boom (at_ "gone.lit" 3 1 5))
       emptyBuffer
     = afterAnnotation files
         (FailedFunctionError "title" boom (at_ "gone.lit" 3 1 5))
         (snd (Fprintf_nil emptyBuffer
                 (firstLine
                    (FailedFunctionError "title" boom (at_ "gone.lit" 3 1 5))))).
Proof.
  apply (PrettyPrint_drops_read_failure files
           (FailedFunctionError "title" boom (at_ "gone.lit" 3 1 5))
           emptyBuffer EmptyString (noSuchFile "gone.lit")).
  - simpl. discriminate.
  - vm_compute. reflexivity.
Defined.

(** C2, as stated, fails. The file [gone.lit] cannot be opened; the
    annotation fails with "no such file" in one world and with "permission
    denied" in the other. [PrettyPrint], for each of the five kinds, returns
    the same in both: the narrative without the snippet. So nothing that it
    hands to its caller tells the failure. *)
Lemma PrettyPrint_hides_read_failure :
  AnnotateLocation files (at_ "gone.lit" 3 1 5) emptyBuffer
  = Returned (Some (noSuchFile "gone.lit"), emptyBuffer)
  /\ AnnotateLocation lockedFiles (at_ "gone.lit" 3 1 5) emptyBuffer
     = Returned (Some (permissionDenied "gone.lit"), emptyBuffer)
  /\ map (fun d => PrettyPrint files d emptyBuffer) unreadable
     = map (fun d => PrettyPrint lockedFiles d emptyBuffer) unreadable
  /\ map (fun d => PrettyPrint files d emptyBuffer) unreadable
     = map (fun text => Returned (NewBuffer text))
         ["gone.lit:3: parse error: boom" ++ nl ++ nl;
          "gone.lit:3: reference points to unknown tag 'intro':" ++ nl ++ nl;
          "gone.lit:3: ambiguous target for tag 'intro':" ++ nl ++ nl
          ++ "the same tag was defined in the following locations:" ++ nl ++ nl
          ++ "- gone.lit:" ++ nl ++ "one of these must be changed." ++ nl;
          "gone.lit:3: undefined function \title:" ++ nl ++ nl;
          "gone.lit:3: function \title returned an error:" ++ nl ++ nl
          ++ "error: boom" ++ nl]
  /\ ~ (exists report : Outcome Buffer -> option error,
          forall (fs : FileSystem) (d : PrettyError) (s : string) (e : error),
            Line (NodeLocation (location d)) <> 0 ->
            lineInQuestion fs (location d) = (s, Some e) ->
            report (PrettyPrint fs d emptyBuffer) = Some e).
Proof.
  assert (Hsame :
            PrettyPrint files (ParseError boom (at_ "gone.lit" 3 1 5)) emptyBuffer
            = PrettyPrint lockedFiles (ParseError boom (at_ "gone.lit" 3 1 5))
                emptyBuffer)
    by (vm_compute; reflexivity).
  split; [vm_compute; reflexivity|].
  split; [vm_compute; reflexivity|].
  split; [vm_compute; reflexivity|].
  split; [vm_compute; reflexivity|].
  intros [report Hreport].
  assert (H1 := Hreport files (ParseError boom (at_ "gone.lit" 3 1 5))
                  EmptyString (noSuchFile "gone.lit")).
  assert (H2 := Hreport lockedFiles (ParseError boom (at_ "gone.lit" 3 1 5))
                  EmptyString (permissionDenied "gone.lit")).
  rewrite Hsame in H1.
  rewrite H2 in H1; [| simpl; discriminate | vm_compute; reflexivity].
  specialize (H1 ltac:(simpl; discriminate) ltac:(vm_compute; reflexivity)).
  vm_compute in H1. discriminate H1.
Qed.

(** ** The narrative of an ambiguous reference *)

Module PrefixFacts.

Import StringFacts textio.

Lemma isLine_line (a : string) : isLine (a ++ nl) = true.
Proof.
  unfold isLine, nl. rewrite ReadFacts.unsnoc_append_byte.
  apply Ascii.eqb_refl.
Qed.

Lemma splitLines_one (a : string) :
  contains LF a = false -> splitLines (a ++ nl) = [a ++ nl].
Proof.
  intros Ha.
  replace (a ++ nl) with (a ++ nl ++ EmptyString) by now rewrite append_nil_r.
  now rewrite RowFacts.splitLines_first.
Qed.

(** A complete line written through a prefix writer with nothing buffered
    reaches the buffer under it after the prefix. *)
Lemma Write_line (b p a : string) :
  contains LF a = false ->
  Write (a ++ nl) {| base := NewBuffer b; indent := p; buffer := EmptyString |}
  = (None, {| base := NewBuffer (b ++ p ++ a ++ nl); indent := p;
              buffer := EmptyString |}).
Proof.
  intros Ha. unfold Write at 1, PrefixWriter_Writer.
  rewrite (splitLines_one a Ha).
  cbn [writeLines buffer indent base append].
  rewrite isLine_line.
  unfold Write, Buffer_Writer. cbn [bytes].
  now rewrite append_assoc.
Qed.

Lemma indentLines_rows (p : string) (loc : ErrorLocation) (line : string)
  (pad carets : nat) :
  contains LF line = false ->
  indentLines p (gutterRow loc line ++ caretRow pad carets)
  = p ++ gutterRow loc line ++ p ++ caretRow pad carets.
Proof.
  intros Hl. unfold indentLines. rewrite RowFacts.splitLines_rows by assumption.
  cbn [map concat_all]. now rewrite append_nil_r, !append_assoc.
Qed.

End PrefixFacts.

(** [AnnotateLocation] on any sink, for a line that was read: the two rows
    are written one after the other, the counts being checked in between. *)
Lemma AnnotateLocation_rows {W : Type} `{Writer W} (fs : FileSystem)
  (loc : ErrorLocation) (line : string) (out : W) :
  Line (NodeLocation loc) <> 0 ->
  lineInQuestion fs loc = (line, None) ->
  AnnotateLocation fs loc out
  = match Write (gutterRow loc line) out with
    | (Some err, out1) => Returned (Some err, out1)
    | (None, out1) =>
        if (padWidth loc <? 0) || (Length loc <? 0) then Panicked
        else
          match
            Write (caretRow (Z.to_nat (padWidth loc)) (Z.to_nat (Length loc))) out1
          with
          | (Some err, out2) => Returned (Some err, out2)
          | (None, out2) => Returned (None, out2)
          end
    end.
Proof.
  intros Hl Hr. unfold AnnotateLocation.
  apply Z.eqb_neq in Hl. rewrite Hl, Hr.
  fold (gutter loc). fold (padWidth loc). unfold Fprintf, gutterRow, caretRow.
  rewrite StringFacts.append_assoc.
  destruct (Write _ out) as [[err|] out1]; [reflexivity|].
  unfold Repeat.
  destruct (padWidth loc <? 0); [reflexivity|].
  destruct (Length loc <? 0); reflexivity.
Qed.

Lemma AnnotateLocation_unavailable {W : Type} `{Writer W} (fs : FileSystem)
  (loc : ErrorLocation) (out : W) :
  Line (NodeLocation loc) = 0 -> AnnotateLocation fs loc out = Returned (None, out).
Proof. intros Hl. unfold AnnotateLocation. now rewrite Hl. Qed.

(** The three ways an annotation goes, on an empty buffer. *)
Lemma annotationOf_cases (fs : FileSystem) (loc : ErrorLocation) :
  annotates fs loc ->
  (annotationOf fs loc = EmptyString
   /\ forall (W : Type) (HW : Writer W) (out : W),
        exists err, AnnotateLocation fs loc out = Returned (err, out))
  \/ (exists line : string,
        Line (NodeLocation loc) <> 0
        /\ lineInQuestion fs loc = (line, None)
        /\ (padWidth loc <? 0) || (Length loc <? 0) = false
        /\ annotationOf fs loc
           = gutterRow loc line
             ++ caretRow (Z.to_nat (padWidth loc)) (Z.to_nat (Length loc))).
Proof.
  intros Ha. unfold annotates in Ha. unfold annotationOf.
  destruct (Z.eq_dec (Line (NodeLocation loc)) 0) as [Hl|Hl].
  - left. split.
    + now rewrite AnnotateLocation_unavailable.
    + intros W HW out. exists None. now apply AnnotateLocation_unavailable.
  - destruct (lineInQuestion fs loc) as [line [e|]] eqn:Hr.
    + left. split.
      * now rewrite (AnnotateLocation_read_failure fs loc _ line e).
      * intros W HW out. exists (Some e).
        now apply AnnotateLocation_read_failure with (s := line).
    + right. exists line.
      rewrite (AnnotateLocation_rows fs loc line) in Ha |- * by assumption.
      unfold Write, Buffer_Writer in Ha |- *.
      destruct ((padWidth loc <? 0) || (Length loc <? 0)); [congruence|].
      repeat split; assumption || reflexivity.
Qed.

(** [AnnotateLocation] appends to a buffer what it writes into an empty
    one. *)
Lemma AnnotateLocation_appends (fs : FileSystem) (loc : ErrorLocation)
  (out : Buffer) :
  annotates fs loc ->
  exists err : option error,
    AnnotateLocation fs loc out
    = Returned (err, NewBuffer (bytes out ++ annotationOf fs loc)).
Proof.
  intros Ha. destruct (annotationOf_cases fs loc Ha)
    as [[-> Hsame] | [line [Hl [Hr [Hc ->]]]]].
  - destruct (Hsame Buffer _ out) as [err ->]. exists err.
    rewrite StringFacts.append_nil_r. now destruct out.
  - exists None. rewrite (AnnotateLocation_rows fs loc line) by assumption.
    unfold Write, Buffer_Writer. rewrite Hc. cbn [bytes].
    now rewrite StringFacts.append_assoc.
Qed.

(** Through a prefix writer over a buffer, it appends the same lines, each
    after the prefix. *)
Lemma AnnotateLocation_indented (fs : FileSystem) (loc : ErrorLocation)
  (p : string) (out : Buffer) :
  annotates fs loc ->
  exists (err : option error) (w : textio.PrefixWriter Buffer),
    AnnotateLocation fs loc (textio.NewPrefixWriter out p) = Returned (err, w)
    /\ textio.base w
       = NewBuffer (bytes out ++ indentLines p (annotationOf fs loc)).
Proof.
  intros Ha. destruct (annotationOf_cases fs loc Ha)
    as [[-> Hsame] | [line [Hl [Hr [Hc ->]]]]].
  - destruct (Hsame _ _ (textio.NewPrefixWriter out p)) as [err ->].
    exists err, (textio.NewPrefixWriter out p). split; [reflexivity|].
    cbn [textio.base textio.NewPrefixWriter]. unfold indentLines.
    cbn [textio.splitLines map concat_all].
    rewrite StringFacts.append_nil_r. now destruct out.
  - assert (Hline := lineInQuestion_no_LF fs loc line None Hr).
    rewrite (AnnotateLocation_rows fs loc line) by assumption.
    rewrite Hc. unfold textio.NewPrefixWriter.
    unfold gutterRow at 1.
    replace (gutter loc ++ "| " ++ line ++ nl)
      with ((gutter loc ++ "| " ++ line) ++ nl)
      by now rewrite !StringFacts.append_assoc.
    destruct out as [b]. cbn [bytes].
    rewrite PrefixFacts.Write_line
      by (rewrite !contains_append, RowFacts.gutter_no_LF, Hline; reflexivity).
    unfold caretRow at 1.
    set (pad := Z.to_nat (padWidth loc)).
    set (carets := Z.to_nat (Length loc)).
    replace (replicate pad " " ++ red ++ replicate carets "^" ++ reset ++ nl)
      with ((replicate pad " " ++ red ++ replicate carets "^" ++ reset) ++ nl)
      by now rewrite !StringFacts.append_assoc.
    rewrite PrefixFacts.Write_line by apply RowFacts.caretRow_no_LF.
    eexists _, _. split; [reflexivity|]. cbn [textio.base].
    rewrite PrefixFacts.indentLines_rows by assumption.
    unfold gutterRow, caretRow. now rewrite !StringFacts.append_assoc.
Qed.

Lemma Fprintf_Buffer (out : Buffer) (text : string) :
  Fprintf out text = (None, NewBuffer (bytes out ++ text)).
Proof. reflexivity. Qed.

Lemma printDefinedLocations_Buffer (fs : FileSystem) (locs : list ErrorLocation) :
  Forall (annotates fs) locs ->
  forall out : Buffer,
    printDefinedLocations fs locs out
    = Returned (NewBuffer (bytes out ++ concat_all (map (definedEntry fs) locs))).
Proof.
  induction 1 as [|loc locs Hloc Hlocs IH]; intros out.
  - cbn [printDefinedLocations map concat_all].
    rewrite StringFacts.append_nil_r. now destruct out.
  - cbn [printDefinedLocations map concat_all].
    rewrite Fprintf_Buffer.
    destruct (AnnotateLocation_indented fs loc "  "
                (NewBuffer (bytes out ++ "- " ++ FilePath loc ++ ":" ++ nl)) Hloc)
      as [err [w [-> Hbase]]].
    cbn [bindO snd]. rewrite Hbase, IH. cbn [bytes].
    unfold definedEntry. now rewrite !StringFacts.append_assoc.
Qed.

Lemma Fprintf_nil_exact (out : Buffer) (format : string) :
  Fprintf_nil out format = (None, NewBuffer (bytes out ++ fmt.Sprintf_nil format)).
Proof. reflexivity. Qed.

Lemma Fprintf_nil_Buffer (out : Buffer) (format : string) :
  contains "%" format = false ->
  Fprintf_nil out format = (None, NewBuffer (bytes out ++ format)).
Proof.
  intros Hc. unfold Fprintf_nil, Write, Buffer_Writer.
  now rewrite Sprintf_nil_plain.
Qed.



(** The same narrative, as text. *)
Example PrettyPrint_AmbiguousReference_text :
  PrettyPrint files
    (AmbiguousReferenceError "intro"
       [at_ "doc.lit" 1 1 5; at_ "one.lit" 1 3 2] (at_ "doc.lit" 3 1 4))
    emptyBuffer
  = Returned
      (NewBuffer
         ("doc.lit:3: ambiguous target for tag 'intro':" ++ nl ++ nl
          ++ "   3| body" ++ nl
          ++ "      " ++ red ++ "^^^^" ++ reset ++ nl
          ++ "the same tag was defined in the following locations:" ++ nl ++ nl
          ++ "- doc.lit:" ++ nl
          ++ "     1| title" ++ nl
          ++ "        " ++ red ++ "^^^^^" ++ reset ++ nl
          ++ "- one.lit:" ++ nl
          ++ "     1| title" ++ nl
          ++ "          " ++ red ++ "^^" ++ reset ++ nl
          ++ "one of these must be changed." ++ nl)).
Proof. vm_compute. reflexivity. Qed.

(** ** The page responder *)

(** C8. With the template [page.tmpl] in the set, [ErrorPage] returns for
    every error value and every sink: it has no error result and it does
    not panic. When the execution of the template fails with [renderErr],
    it writes ["failed to render error page: "] followed by the message of
    [renderErr] to the sink as the execution left it. *)
Theorem ErrorPage_contains_failure {W : Type} `{Writer W}
  (errorTmpl : TemplateSet) (page : Template) (err : error) (w : W) :
  Lookup errorTmpl "page.tmpl" = Some page ->
  exists (renderErr : option error) (w1 : W),
    Execute (Some page) w (ErrorData err) = Returned (renderErr, w1)
    /\ ErrorPage errorTmpl err w
       = Returned
           match renderErr with
           | Some e =>
               snd (Write ("failed to render error page: " ++ Error e) w1)
           | None => w1
           end.
Proof.
  intros Hpage. unfold ErrorPage. rewrite Hpage.
  unfold Execute. destruct (run page (ErrorData err)) as [pieces e].
  destruct (writeAll pieces w) as [[werr|] w1].
  - exists (Some werr), w1. split; reflexivity.
  - exists e, w1. split; [reflexivity|]. destruct e; reflexivity.
Qed.

(** An instance: the page template fails after its first piece of text. *)
Lemma ErrorPage_contains_failure_witness :
  exists (renderErr : option error) (w1 : Buffer),
    Execute (Some (failing "template: page.tmpl: boom")) emptyBuffer
      (ErrorData (errorString "oops")) = Returned (renderErr, w1)
    /\ ErrorPage [("page.tmpl", failing "template: page.tmpl: boom")]
         (errorString "oops") emptyBuffer
       = Returned
           match renderErr with
           | Some e =>
               snd (Write ("failed to render error page: " ++ Error e) w1)
           | None => w1
           end.
Proof.
  apply (ErrorPage_contains_failure
           [("page.tmpl", failing "template: page.tmpl: boom")]
           (failing "template: page.tmpl: boom")).
  reflexivity.
Defined.

(** On a buffer: the text of the template up to its failure, then the
    fallback line. *)
Example ErrorPage_fallback_text :
  ErrorPage [("page.tmpl", failing "template: page.tmpl: boom")]
    (errorString "oops") emptyBuffer
  = Returned
      (NewBuffer "<html>failed to render error page: template: page.tmpl: boom").
Proof. vm_compute. reflexivity. Qed.

(** Without [page.tmpl] in the set, [ErrorPage] calls [Execute] through the
    nil template. *)
Lemma ErrorPage_without_page {W : Type} `{Writer W}
  (errorTmpl : TemplateSet) (err : error) (w : W) :
  Lookup errorTmpl "page.tmpl" = None -> ErrorPage errorTmpl err w = Panicked.
Proof. intros Hpage. unfold ErrorPage. now rewrite Hpage. Qed.

(** ** The names of the templates *)

(** C9, as the code has it. The templates are looked up under the base names
    of their files, extension included: [PrettyHTML] executes the template
    registered as [parse-error.tmpl], [unknown-tag.tmpl],
    [ambiguous-reference.tmpl], [undefined-function.tmpl] or
    [function-error.tmpl] against the diagnostic, [ErrorPage] executes
    [page.tmpl] against the error, and [AnnotatedHTML] executes
    [annotated-line.tmpl] against the annotated view. *)
Theorem templates_looked_up_by_file_name {W : Type} `{Writer W}
  (fs : FileSystem) (errorTmpl : TemplateSet) (t : Template) :
  (forall (d : PrettyError) (out : W),
      Lookup errorTmpl (kindTemplate d) = Some t ->
      PrettyHTML errorTmpl d out = Execute (Some t) out (ErrorData (Pretty d)))
  /\ (forall (err : error) (w : W),
         Lookup errorTmpl "page.tmpl" = Some t ->
         ErrorPage errorTmpl err w
         = (r <- Execute (Some t) w (ErrorData err) ;;
            match r with
            | (Some renderErr, w1) =>
                Returned
                  (snd (Fprintf w1 ("failed to render error page: "
                                    ++ Error renderErr)))
            | (None, w1) => Returned w1
            end))
  /\ (forall (loc : ErrorLocation) (line : string) (out : W),
         Line (NodeLocation loc) <> 0 ->
         lineInQuestion fs loc = (line, None) ->
         Lookup errorTmpl "annotated-line.tmpl" = Some t ->
         AnnotatedHTML fs errorTmpl loc out
         = (data <- annotationData loc line ;;
            Execute (Some t) out (LineData data))).
Proof.
  split; [|split].
  - intros d out Ht. destruct d; simpl in Ht |- *; now rewrite Ht.
  - intros err w Ht. unfold ErrorPage. now rewrite Ht.
  - intros loc line out Hl Hr Ht. unfold AnnotatedHTML.
    apply Z.eqb_neq in Hl. now rewrite Hl, Hr, Ht.
Qed.

(** An instance: the bundle registered under the names of its files. *)
Lemma templates_looked_up_by_file_name_witness :
  PrettyHTML bundle (UnknownTagError "intro" (at_ "doc.lit" 1 1 5)) emptyBuffer
  = Execute (Some showLine) emptyBuffer
      (ErrorData (Pretty (UnknownTagError "intro" (at_ "doc.lit" 1 1 5))))
  /\ ErrorPage bundle boom emptyBuffer
     = (r <- Execute (Some showLine) emptyBuffer (ErrorData boom) ;;
        match r with
        | (Some renderErr, w1) =>
            Returned
              (snd (Fprintf w1 ("failed to render error page: "
                                ++ Error renderErr)))
        | (None, w1) => Returned w1
        end)
  /\ AnnotatedHTML files bundle (at_ "doc.lit" 1 1 5) emptyBuffer
     = (data <- annotationData (at_ "doc.lit" 1 1 5) "title" ;;
        Execute (Some showLine) emptyBuffer (LineData data)).
Proof.
  destruct (templates_looked_up_by_file_name (W := Buffer) files bundle showLine)
    as [Hkind [Hpage Hline]].
  split; [|split].
  - apply Hkind. reflexivity.
  - apply Hpage. reflexivity.
  - apply Hline; [discriminate | vm_compute; reflexivity | reflexivity].
Defined.

(** C9, as stated, fails. In a template set that registers the templates
    under [page], [annotated-line], [parse-error], [unknown-tag],
    [ambiguous-reference], [undefined-function] and [function-error], none
    of the lookups of [errors.go] finds its template: every rich rendering
    and the page responder call [Execute] through the nil template. With the
    extension in the names they return. *)
Lemma bare_template_names_not_found :
  map (fun d => PrettyHTML bareNames d emptyBuffer) oneOfEach
  = [Panicked; Panicked; Panicked; Panicked; Panicked]
  /\ ErrorPage bareNames boom emptyBuffer = Panicked
  /\ AnnotatedHTML files bareNames (at_ "doc.lit" 1 1 5) emptyBuffer = Panicked
  /\ map kindTemplate oneOfEach
     = ["parse-error.tmpl"; "unknown-tag.tmpl"; "ambiguous-reference.tmpl";
        "undefined-function.tmpl"; "function-error.tmpl"]
  /\ ErrorPage bundle boom emptyBuffer = Returned (NewBuffer "boom").
Proof. vm_compute. repeat split. Qed.

(** * Further properties *)

(** ** The lines that [lineInQuestion] returns *)

Module LineFacts.

Import bufio StringFacts.

Lemma scan_line (l rest : string) :
  contains LF l = false ->
  forall size : nat,
    (String.length l < size)%nat ->
    scan size (l ++ nl ++ rest) = (l ++ nl, rest, Found).
Proof.
  induction l as [|c l IH]; intros Hl size Hs.
  - destruct size as [|size]; [lia|].
    cbn [append nl scan]. now rewrite Ascii.eqb_refl.
  - destruct size as [|size]; [cbn in Hs; lia|].
    cbn [contains] in Hl. apply orb_false_elim in Hl as [Hc Hl].
    cbn [append scan]. rewrite Ascii.eqb_sym, Hc.
    rewrite (IH Hl size) by (cbn in Hs; lia). reflexivity.
Qed.

Lemma scan_drain (l : string) :
  contains LF l = false ->
  forall size : nat,
    (String.length l < size)%nat -> scan size l = (l, EmptyString, Drained).
Proof.
  induction l as [|c l IH]; intros Hl size Hs.
  - destruct size as [|size]; [lia | reflexivity].
  - destruct size as [|size]; [cbn in Hs; lia|].
    cbn [contains] in Hl. apply orb_false_elim in Hl as [Hc Hl].
    cbn [scan]. rewrite Ascii.eqb_sym, Hc.
    rewrite (IH Hl size) by (cbn in Hs; lia). reflexivity.
Qed.

Lemma scan_full (size : nat) :
  forall chunk rest : string,
    contains LF chunk = false ->
    String.length chunk = size ->
    scan size (chunk ++ rest) = (chunk, rest, BufferFull).
Proof.
  induction size as [|size IH]; intros chunk rest Hc Hs.
  - destruct chunk; [reflexivity | discriminate].
  - destruct chunk as [|c chunk]; [discriminate|].
    cbn [contains] in Hc. apply orb_false_elim in Hc as [Hc Hk].
    cbn [append scan]. rewrite Ascii.eqb_sym, Hc.
    rewrite (IH chunk rest Hk) by (cbn in Hs; lia). reflexivity.
Qed.

Lemma dropLineEnd_line (l : string) : dropLineEnd (l ++ nl) = stripCR l.
Proof.
  unfold dropLineEnd, stripCR, nl. rewrite ReadFacts.unsnoc_append_byte.
  now rewrite Ascii.eqb_refl.
Qed.

(** A short line is read whole, without its line end. *)
Lemma ReadLine_line (l rest : string) (e : error) :
  shortLine l ->
  ReadLine {| unread := l ++ nl ++ rest; pending := e |}
  = ((stripCR l, false, None), {| unread := rest; pending := e |}).
Proof.
  intros [Hl Hs]. unfold ReadLine. cbn [unread pending].
  rewrite (scan_line l rest Hl defaultBufSize Hs).
  now rewrite dropLineEnd_line.
Qed.

(** What is left after the last line feed is read as it is. *)
Lemma ReadLine_last (c : ascii) (last : string) (e : error) :
  shortLine (String c last) ->
  ReadLine {| unread := String c last; pending := e |}
  = ((String c last, false, None), {| unread := EmptyString; pending := e |}).
Proof.
  intros [Hl Hs]. unfold ReadLine. cbn [unread pending].
  now rewrite (scan_drain _ Hl defaultBufSize Hs).
Qed.

Lemma ReadLine_drained (e : error) :
  ReadLine {| unread := EmptyString; pending := e |}
  = ((EmptyString, false, Some e), {| unread := EmptyString; pending := e |}).
Proof.
  unfold ReadLine. destruct ReadFacts.defaultBufSize_S as [size ->].
  reflexivity.
Qed.

(** A chunk as long as the buffer without a line feed is returned as the
    beginning of a line. *)
Lemma ReadLine_full (chunk rest : string) (e : error) :
  contains LF chunk = false ->
  String.length chunk = defaultBufSize ->
  stripCR chunk = chunk ->
  ReadLine {| unread := chunk ++ rest; pending := e |}
  = ((chunk, true, None), {| unread := rest; pending := e |}).
Proof.
  intros Hc Hs Hcr. unfold ReadLine. cbn [unread pending].
  rewrite (scan_full defaultBufSize chunk rest Hc Hs).
  unfold stripCR in Hcr.
  destruct (unsnoc chunk) as [[i c]|] eqn:Hu; [|reflexivity].
  destruct (Ascii.eqb c CR) eqn:Hcc; [|reflexivity].
  apply ReadFacts.unsnoc_Some in Hu. subst i.
  apply (f_equal String.length) in Hu.
  rewrite length_append in Hu. cbn [String.length] in Hu. lia.
Qed.

Lemma joinLines_cons (l : string) (ls : list string) (rest : string) :
  joinLines (l :: ls) ++ rest = l ++ nl ++ joinLines ls ++ rest.
Proof.
  unfold joinLines. cbn [map concat_all]. now rewrite !append_assoc.
Qed.

(** The loop over short lines leaves the reader after them. *)
Lemma discardLines_joinLines (ls : list string) (rest : string) (e : error) :
  Forall shortLine ls ->
  discardLines (List.length ls) {| unread := joinLines ls ++ rest; pending := e |}
  = inr {| unread := rest; pending := e |}.
Proof.
  induction 1 as [|l ls Hl Hls IH].
  - reflexivity.
  - cbn [List.length discardLines]. rewrite joinLines_cons.
    now rewrite (ReadLine_line l _ e Hl).
Qed.

Lemma joinLines_app (pre post : list string) :
  joinLines (pre ++ post) = joinLines pre ++ joinLines post.
Proof.
  induction pre as [|l pre IH]; [reflexivity|].
  change ((l :: pre) ++ post)%list with (l :: (pre ++ post))%list.
  unfold joinLines in *. cbn [map concat_all]. now rewrite IH, !append_assoc.
Qed.

End LineFacts.

(** Concrete lines are short by computation. *)
Ltac short_line :=
  split; [reflexivity | apply Nat.ltb_lt; vm_compute; reflexivity].

Ltac short_lines :=
  repeat (apply Forall_cons; [short_line|]); apply Forall_nil.

(** X1. In a file whose first lines are short (no longer than the buffer of
    the reader), each ended by a line feed, [lineInQuestion] returns for
    every line number within them that line, without its line feed and
    without the carriage return before it, and no error. *)
Theorem lineInQuestion_text_line (fs : FileSystem) (loc : ErrorLocation)
  (f : File) (ls : list string) (rest : string) :
  fs (FilePath loc) = Opens f ->
  contents f = joinLines ls ++ rest ->
  Forall shortLine ls ->
  1 <= Line (NodeLocation loc) <= Z.of_nat (List.length ls) ->
  Line (NodeLocation loc) <= GoInt.max_int ->
  lineInQuestion fs loc
  = (stripCR (nth (Z.to_nat (Line (NodeLocation loc) - 1)) ls EmptyString), None).
Proof.
  intros Hopen Hcontents Hshort Hline Hmax.
  set (k := Z.to_nat (Line (NodeLocation loc) - 1)).
  assert (Hk : (k < List.length ls)%nat) by (unfold k; lia).
  destruct (skipn_nth _ EmptyString ls k Hk) as [post Hpost].
  assert (Hls : ls = (firstn k ls ++ nth k ls EmptyString :: post)%list)
    by (rewrite <- Hpost; symmetry; apply firstn_skipn).
  assert (Hpre : Forall shortLine (firstn k ls)).
  { rewrite Hls in Hshort. now apply Forall_app in Hshort. }
  assert (Hl : shortLine (nth k ls EmptyString)).
  { rewrite Hls in Hshort. apply Forall_app in Hshort as [_ Hshort].
    now inversion Hshort. }
  unfold lineInQuestion. rewrite Hopen.
  rewrite IntFacts.sub_exact
    by (unfold GoInt.is_int, GoInt.min_int, GoInt.max_int in *; lia).
  fold k. unfold bufio.NewReader. rewrite Hcontents.
  rewrite Hls at 1. rewrite LineFacts.joinLines_app, StringFacts.append_assoc.
  rewrite LineFacts.joinLines_cons.
  replace k with (List.length (firstn k ls)) at 1
    by (apply firstn_length_le; lia).
  rewrite (LineFacts.discardLines_joinLines _ _ _ Hpre).
  now rewrite (LineFacts.ReadLine_line _ _ _ Hl).
Qed.

(** An instance: line 2 of a file with DOS line ends. *)
Lemma lineInQuestion_text_line_witness :
  lineInQuestion moreFiles (at_ "dos.lit" 2 1 1)
  = (stripCR
       (nth (Z.to_nat (2 - 1))
          ["title" ++ String CR EmptyString; "body" ++ String CR EmptyString]
          EmptyString),
     None).
Proof.
  apply (lineInQuestion_text_line moreFiles (at_ "dos.lit" 2 1 1) dosLines
           ["title" ++ String CR EmptyString; "body" ++ String CR EmptyString]
           "tail").
  - reflexivity.
  - reflexivity.
  - short_lines.
  - simpl. lia.
  - vm_compute. discriminate.
Defined.

(** X2. What follows the last line feed of a file, when it is not empty and
    fits the buffer, is the last line: [lineInQuestion] returns it as it is,
    a final carriage return included, and no error. *)
Theorem lineInQuestion_unterminated_last_line (fs : FileSystem)
  (loc : ErrorLocation) (f : File) (ls : list string) (c : ascii)
  (last : string) :
  fs (FilePath loc) = Opens f ->
  contents f = joinLines ls ++ String c last ->
  Forall shortLine ls ->
  shortLine (String c last) ->
  Line (NodeLocation loc) = Z.of_nat (List.length ls) + 1 ->
  Line (NodeLocation loc) <= GoInt.max_int ->
  lineInQuestion fs loc = (String c last, None).
Proof.
  intros Hopen Hcontents Hshort Hlast Hline Hmax.
  unfold lineInQuestion. rewrite Hopen.
  rewrite IntFacts.sub_exact
    by (unfold GoInt.is_int, GoInt.min_int, GoInt.max_int in *; lia).
  replace (Z.to_nat (Line (NodeLocation loc) - 1)) with (List.length ls) by lia.
  unfold bufio.NewReader. rewrite Hcontents.
  rewrite (LineFacts.discardLines_joinLines _ _ _ Hshort).
  now rewrite (LineFacts.ReadLine_last _ _ _ Hlast).
Qed.

(** An instance: the third line of [dos.lit] has no line end. *)
Lemma lineInQuestion_unterminated_last_line_witness :
  lineInQuestion moreFiles (at_ "dos.lit" 3 1 1) = ("tail", None).
Proof.
  apply (lineInQuestion_unterminated_last_line moreFiles (at_ "dos.lit" 3 1 1)
           dosLines
           ["title" ++ String CR EmptyString; "body" ++ String CR EmptyString]
           "t" "ail").
  - reflexivity.
  - reflexivity.
  - short_lines.
  - short_line.
  - reflexivity.
  - vm_compute. discriminate.
Defined.

(** X3. A line longer than the buffer of the reader is cut: where the bytes
    of a line fill the buffer without a line feed, [lineInQuestion] returns
    just these bytes for its line number, and the rest of the same line is
    what it returns for the next line number. *)
Theorem lineInQuestion_long_line_cut (fs : FileSystem) (f : File)
  (ls : list string) (chunk more after : string) (path : string)
  (col length : Z) :
  fs path = Opens f ->
  contents f = joinLines ls ++ chunk ++ (more ++ nl ++ after) ->
  Forall shortLine ls ->
  contains LF chunk = false ->
  String.length chunk = bufio.defaultBufSize ->
  stripCR chunk = chunk ->
  shortLine more ->
  Z.of_nat (List.length ls) + 2 <= GoInt.max_int ->
  let at_line (line : Z) :=
    {| FilePath := path; NodeLocation := {| Line := line; Col := col |};
       Length := length |} in
  lineInQuestion fs (at_line (Z.of_nat (List.length ls) + 1)) = (chunk, None)
  /\ lineInQuestion fs (at_line (Z.of_nat (List.length ls) + 2))
     = (stripCR more, None).
Proof.
  intros Hopen Hcontents Hshort Hlf Hsize Hcr Hmore Hmax at_line.
  split; unfold lineInQuestion, at_line; cbn [FilePath NodeLocation Line];
    rewrite Hopen;
    rewrite IntFacts.sub_exact
      by (unfold GoInt.is_int, GoInt.min_int, GoInt.max_int in *; lia);
    unfold bufio.NewReader; rewrite Hcontents.
  - replace (Z.to_nat (Z.of_nat (List.length ls) + 1 - 1)) with (List.length ls)
      by lia.
    rewrite (LineFacts.discardLines_joinLines _ _ _ Hshort).
    now rewrite (LineFacts.ReadLine_full _ _ _ Hlf Hsize Hcr).
  - replace (Z.to_nat (Z.of_nat (List.length ls) + 2 - 1))
      with (List.length ls + 1)%nat by lia.
    assert (Hsplit :
              forall (n m : nat) (b : bufio.Reader),
                discardLines (n + m) b
                = match discardLines n b with
                  | inl e => inl e
                  | inr b' => discardLines m b'
                  end).
    { induction n as [|n IH]; intros m b; [reflexivity|].
      cbn [Nat.add discardLines].
      destruct (bufio.ReadLine b) as [[[l p] [e|]] b']; [reflexivity|].
      apply IH. }
    rewrite Hsplit, (LineFacts.discardLines_joinLines _ _ _ Hshort).
    cbn [discardLines].
    rewrite (LineFacts.ReadLine_full _ _ _ Hlf Hsize Hcr).
    now rewrite (LineFacts.ReadLine_line _ _ _ Hmore).
Qed.

(** An instance: the second line of [wide.lit] is the buffer size and two
    bytes long. *)
Lemma lineInQuestion_long_line_cut_witness :
  let at_line (line : Z) :=
    {| FilePath := "wide.lit"; NodeLocation := {| Line := line; Col := 1 |};
       Length := 1 |} in
  lineInQuestion moreFiles (at_line (Z.of_nat (List.length ["title"]) + 1))
  = (replicate bufio.defaultBufSize "x", None)
  /\ lineInQuestion moreFiles (at_line (Z.of_nat (List.length ["title"]) + 2))
     = (stripCR "yz", None).
Proof.
  apply (lineInQuestion_long_line_cut moreFiles wideLine ["title"]
           (replicate bufio.defaultBufSize "x") "yz" ("body" ++ nl) "wide.lit"
           1 1).
  - reflexivity.
  - reflexivity.
  - short_lines.
  - vm_compute. reflexivity.
  - vm_compute. reflexivity.
  - vm_compute. reflexivity.
  - short_line.
  - vm_compute. discriminate.
Defined.

(** X4. Whatever the files and the location, the line that [lineInQuestion]
    returns holds no line feed, and it is the empty string whenever an error
    comes with it. *)
Theorem lineInQuestion_result_shape (fs : FileSystem) (loc : ErrorLocation) :
  contains LF (fst (lineInQuestion fs loc)) = false
  /\ (snd (lineInQuestion fs loc) <> None ->
      fst (lineInQuestion fs loc) = EmptyString).
Proof.
  split.
  - destruct (lineInQuestion fs loc) as [line err] eqn:Hr.
    now apply lineInQuestion_no_LF in Hr.
  - unfold lineInQuestion.
    destruct (fs (FilePath loc)) as [e|file]; [reflexivity|].
    destruct (discardLines _ _) as [e|buf]; [reflexivity|].
    destruct (bufio.ReadLine buf) as [[[l p] [e|]] buf'].
    + now destruct (is_EOF e).
    + cbn [fst snd]. congruence.
Qed.

(** An instance: line 9 of a file of three lines. *)
Lemma lineInQuestion_result_shape_witness :
  contains LF (fst (lineInQuestion files (at_ "doc.lit" 9 1 1))) = false
  /\ fst (lineInQuestion files (at_ "doc.lit" 9 1 1)) = EmptyString.
Proof.
  destruct (lineInQuestion_result_shape files (at_ "doc.lit" 9 1 1)) as [H1 H2].
  split; [exact H1|]. apply H2. vm_compute. discriminate.
Defined.

(** ** The split of a line, in range and out of it *)

Module SubstringFacts.

Lemma substring_whole (s : string) : substring 0 (String.length s) s = s.
Proof.
  induction s as [|c s IH]; [reflexivity|].
  cbn [String.length substring]. now rewrite IH.
Qed.

Lemma substring_next (s : string) :
  forall n m : nat,
    (n + m <= String.length s)%nat ->
    substring 0 n s ++ substring n m s = substring 0 (n + m) s.
Proof.
  induction s as [|c s IH]; intros n m Hn.
  - cbn in Hn. assert (n = 0%nat) by lia. assert (m = 0%nat) by lia.
    subst. reflexivity.
  - destruct n as [|n].
    + cbn [Nat.add]. destruct m; reflexivity.
    + cbn [Nat.add substring append]. f_equal. apply IH. cbn in Hn. lia.
Qed.

Lemma length_substring (s : string) :
  forall n m : nat,
    (n + m <= String.length s)%nat -> String.length (substring n m s) = m.
Proof.
  induction s as [|c s IH]; intros n m Hn.
  - cbn in Hn. assert (n = 0%nat) by lia. assert (m = 0%nat) by lia.
    subst. reflexivity.
  - destruct n as [|n].
    + destruct m as [|m]; [reflexivity|].
      cbn [substring String.length]. f_equal.
      apply (IH 0%nat m). cbn in Hn. lia.
    + cbn [substring]. apply IH. cbn in Hn. lia.
Qed.

End SubstringFacts.

(** X5. When the window of a location with [Col >= 1] and [Length >= 0]
    lies within the line, the split returns three parts that put together
    give the line back; the prefix is [Col - 1] bytes long and the annotated
    part [Length] bytes. *)
Theorem annotationData_parts_make_line (loc : ErrorLocation) (line : string) :
  1 <= Col (NodeLocation loc) ->
  0 <= Length loc ->
  Col (NodeLocation loc) - 1 + Length loc <= len line ->
  len line <= GoInt.max_int ->
  exists d : AnnotationData,
    annotationData loc line = Returned d
    /\ AD_Prefix d ++ AD_Annotated d ++ AD_Suffix d = line
    /\ len (AD_Prefix d) = Col (NodeLocation loc) - 1
    /\ len (AD_Annotated d) = Length loc.
Proof.
  intros Hc Hl Hw Hm.
  destruct (annotationData_in_range loc line Hc Hl Hw Hm)
    as [d [Hd [Hp [Ha Hs]]]].
  exists d. split; [exact Hd|].
  set (n := Z.to_nat (Col (NodeLocation loc) - 1)) in *.
  set (m := Z.to_nat (Length loc)) in *.
  assert (Hnm : (n + m <= String.length line)%nat) by (unfold n, m, len in *; lia).
  rewrite Hp, Ha, Hs. repeat split.
  - replace (Z.to_nat (Col (NodeLocation loc) - 1 + Length loc)) with (n + m)%nat
      by (unfold n, m; lia).
    replace (Z.to_nat (len line - (Col (NodeLocation loc) - 1 + Length loc)))
      with (String.length line - (n + m))%nat by (unfold n, m, len; lia).
    rewrite <- StringFacts.append_assoc.
    rewrite SubstringFacts.substring_next by assumption.
    rewrite SubstringFacts.substring_next by lia.
    replace (n + m + (String.length line - (n + m)))%nat
      with (String.length line) by lia.
    apply SubstringFacts.substring_whole.
  - unfold len. rewrite (SubstringFacts.length_substring line 0 n) by lia.
    unfold n. lia.
  - unfold len. rewrite SubstringFacts.length_substring by assumption.
    unfold m. lia.
Qed.

(** An instance: column 3, length 2 on [title]. *)
Lemma annotationData_parts_make_line_witness :
  exists d : AnnotationData,
    annotationData
      {| FilePath := "doc.lit"; NodeLocation := {| Line := 1; Col := 3 |};
         Length := 2 |} "title" = Returned d
    /\ AD_Prefix d ++ AD_Annotated d ++ AD_Suffix d = "title"
    /\ len (AD_Prefix d) = 3 - 1
    /\ len (AD_Annotated d) = 2.
Proof.
  apply (annotationData_parts_make_line
           {| FilePath := "doc.lit"; NodeLocation := {| Line := 1; Col := 3 |};
              Length := 2 |} "title").
  - simpl. lia.
  - simpl. lia.
  - vm_compute. discriminate.
  - vm_compute. discriminate.
Defined.

(** X6. For a column and a length whose sum an [int] holds, the split
    panics exactly when the guard lets the window through and the column is
    below 1 or the length negative: a slice expression is then out of
    range. In every other case it returns. *)
Theorem annotationData_panics_iff (loc : ErrorLocation) (line : string) :
  GoInt.is_int (Col (NodeLocation loc) - 1) ->
  GoInt.is_int (Col (NodeLocation loc) - 1 + Length loc) ->
  len line <= GoInt.max_int ->
  annotationData loc line = Panicked
  <-> (Col (NodeLocation loc) - 1 + Length loc <= len line
       /\ (Col (NodeLocation loc) < 1 \/ Length loc < 0)).
Proof.
  intros Ho Hw Hm. unfold annotationData.
  rewrite (IntFacts.sub_exact _ _ Ho), (IntFacts.add_exact _ _ Hw).
  set (offset := Col (NodeLocation loc) - 1) in *.
  assert (H0 := IntFacts.len_nonneg line).
  destruct (len line >=? offset + Length loc) eqn:Hg.
  - apply Z.geb_le in Hg. unfold slice_from, slice.
    destruct (0 <=? 0) eqn:E0; [|apply Z.leb_gt in E0; lia].
    destruct (0 <=? offset) eqn:E1.
    + apply Z.leb_le in E1.
      destruct (offset <=? len line) eqn:E2.
      * apply Z.leb_le in E2.
        destruct (offset <=? offset + Length loc) eqn:E3.
        -- apply Z.leb_le in E3.
           destruct (offset + Length loc <=? len line) eqn:E4;
             [|apply Z.leb_gt in E4; lia].
           destruct (0 <=? offset + Length loc) eqn:E5;
             [|apply Z.leb_gt in E5; lia].
           destruct (len line <=? len line) eqn:E6;
             [|apply Z.leb_gt in E6; lia].
           cbn. split; [discriminate|]. unfold offset in *. lia.
        -- apply Z.leb_gt in E3. cbn. split; [|reflexivity].
           intros _. unfold offset in *. lia.
      * apply Z.leb_gt in E2. cbn. split; [|reflexivity].
        intros _. unfold offset in *. lia.
    + apply Z.leb_gt in E1. cbn. split; [|reflexivity].
      intros _. unfold offset in *. lia.
  - rewrite Z.geb_leb in Hg. apply Z.leb_gt in Hg.
    split; [discriminate|]. intros [Hle _]. lia.
Qed.

(** An instance: column 0 on a line that holds the window. *)
Lemma annotationData_panics_iff_witness :
  annotationData
    {| FilePath := "doc.lit"; NodeLocation := {| Line := 1; Col := 0 |};
       Length := 2 |} "title" = Panicked.
Proof.
  apply (annotationData_panics_iff
           {| FilePath := "doc.lit"; NodeLocation := {| Line := 1; Col := 0 |};
              Length := 2 |} "title").
  - vm_compute. split; discriminate.
  - vm_compute. split; discriminate.
  - vm_compute. discriminate.
  - split; [vm_compute; discriminate | left; simpl; lia].
Defined.

(** ** Panics and errors of [AnnotateLocation] *)

Lemma padWidth_wrap (loc : ErrorLocation) :
  padWidth loc
  = GoInt.wrap (len (gutter loc) + 2 + Col (NodeLocation loc) - 1).
Proof.
  unfold padWidth. rewrite IntFacts.sub_add. f_equal.
  unfold len. rewrite StringFacts.length_append. cbn [String.length]. lia.
Qed.

(** X7. With the line read, the padding count in the range of [int] and at
    most [modestSize], and the length at most [modestSize],
    [AnnotateLocation] on a buffer panics exactly when the padding count or
    the length is negative: [strings.Repeat] refuses a negative count. *)
Theorem AnnotateLocation_panics_iff (fs : FileSystem) (loc : ErrorLocation)
  (line : string) (out : Buffer) :
  Line (NodeLocation loc) <> 0 ->
  lineInQuestion fs loc = (line, None) ->
  GoInt.min_int <= len (gutter loc) + 2 + Col (NodeLocation loc) - 1
  <= modestSize ->
  Length loc <= modestSize ->
  AnnotateLocation fs loc out = Panicked
  <-> (len (gutter loc) + 2 + Col (NodeLocation loc) - 1 < 0 \/ Length loc < 0).
Proof.
  intros Hl Hr Hp _.
  assert (Hint : GoInt.is_int (len (gutter loc) + 2 + Col (NodeLocation loc) - 1))
    by (unfold GoInt.is_int, modestSize, GoInt.max_int in *; lia).
  rewrite (AnnotateLocation_rows fs loc line out Hl Hr).
  unfold Write, Buffer_Writer.
  rewrite padWidth_wrap, (IntFacts.wrap_int _ Hint).
  destruct (_ <? 0) eqn:E1; cbn [orb].
  - apply Z.ltb_lt in E1. split; [intros _; now left | reflexivity].
  - apply Z.ltb_ge in E1. destruct (Length loc <? 0) eqn:E2.
    + apply Z.ltb_lt in E2. split; [intros _; now right | reflexivity].
    + apply Z.ltb_ge in E2. split; [discriminate | lia].
Qed.

(** An instance: a negative length on line 3 of [doc.lit]. *)
Lemma AnnotateLocation_panics_iff_witness :
  AnnotateLocation files
    {| FilePath := "doc.lit"; NodeLocation := {| Line := 3; Col := 1 |};
       Length := -1 |} emptyBuffer = Panicked.
Proof.
  apply (AnnotateLocation_panics_iff files
           {| FilePath := "doc.lit"; NodeLocation := {| Line := 3; Col := 1 |};
              Length := -1 |} "body" emptyBuffer).
  - simpl. discriminate.
  - vm_compute. reflexivity.
  - vm_compute. split; discriminate.
  - vm_compute. discriminate.
  - right. simpl. lia.
Defined.

(** X8. An error that [AnnotateLocation] returns has one of two origins, for
    every sink: it is the error of [lineInQuestion], and then the sink is as
    it was, or it is the error of a write of the sink. *)
Theorem AnnotateLocation_error_origin {W : Type} `{Writer W} (fs : FileSystem)
  (loc : ErrorLocation) (out out' : W) (e : error) :
  AnnotateLocation fs loc out = Returned (Some e, out') ->
  (snd (lineInQuestion fs loc) = Some e /\ out' = out)
  \/ (exists (p : string) (o : W), Write p o = (Some e, out')).
Proof.
  unfold AnnotateLocation.
  destruct (Line (NodeLocation loc) =? 0); [discriminate|].
  destruct (lineInQuestion fs loc) as [line [err|]].
  - intros [= -> ->]. left. split; reflexivity.
  - unfold Fprintf.
    destruct (Write _ out) as [[err|] out1] eqn:Hw1.
    + intros [= -> ->]. right. eauto.
    + destruct (Repeat " " _) as [pad|]; cbn [bindO]; [|discriminate].
      destruct (Repeat "^" _) as [carets|]; cbn [bindO]; [|discriminate].
      destruct (Write _ out1) as [[err|] out2] eqn:Hw2; [|discriminate].
      intros [= -> ->]. right. eauto.
Qed.

(** An instance: a sink with room for the first row only. *)
Lemma AnnotateLocation_error_origin_witness :
  (snd (lineInQuestion files (at_ "doc.lit" 3 2 3))
   = Some (errorString "short write")
   /\ {| room := 1; taken := "   3| body" ++ nl |} = {| room := 12; taken := EmptyString |})
  \/ (exists (p : string) (o : Limited),
         Write p o
         = (Some (errorString "short write"),
            {| room := 1; taken := "   3| body" ++ nl |})).
Proof.
  apply (AnnotateLocation_error_origin files (at_ "doc.lit" 3 2 3)
           {| room := 12; taken := EmptyString |}
           {| room := 1; taken := "   3| body" ++ nl |}
           (errorString "short write")).
  vm_compute. reflexivity.
Defined.

(** X9. On a buffer, whose writes do not fail, an error of
    [AnnotateLocation] is always the error of the read, and nothing was
    written. *)
Theorem AnnotateLocation_Buffer_error (fs : FileSystem) (loc : ErrorLocation)
  (out out' : Buffer) (e : error) :
  AnnotateLocation fs loc out = Returned (Some e, out') ->
  snd (lineInQuestion fs loc) = Some e /\ out' = out.
Proof.
  unfold AnnotateLocation.
  destruct (Line (NodeLocation loc) =? 0); [discriminate|].
  destruct (lineInQuestion fs loc) as [line [err|]].
  - intros [= -> ->]. split; reflexivity.
  - unfold Fprintf, Write, Buffer_Writer.
    destruct (Repeat " " _) as [pad|]; cbn [bindO]; [|discriminate].
    destruct (Repeat "^" _) as [carets|]; cbn [bindO]; discriminate.
Qed.

(** An instance: a file that is not there. *)
Lemma AnnotateLocation_Buffer_error_witness :
  snd (lineInQuestion files (at_ "gone.lit" 3 1 5)) = Some (noSuchFile "gone.lit")
  /\ emptyBuffer = emptyBuffer.
Proof.
  apply (AnnotateLocation_Buffer_error files (at_ "gone.lit" 3 1 5) emptyBuffer
           emptyBuffer (noSuchFile "gone.lit")).
  vm_compute. reflexivity.
Defined.

(** ** Narratives *)

(** The loop over defined locations that are all unavailable: the lines
    with the file paths, one write each, whatever the files. *)
Lemma printDefinedLocations_unavailable {W : Type} `{Writer W}
  (fs : FileSystem) (locs : list ErrorLocation) :
  Forall (fun l => Line (NodeLocation l) = 0) locs ->
  forall out : W,
    printDefinedLocations fs locs out
    = Returned
        (fold_left
           (fun o l => snd (Fprintf o ("- " ++ FilePath l ++ ":" ++ nl)))
           locs out).
Proof.
  induction 1 as [|l locs Hl Hlocs IH]; intros out; [reflexivity|].
  cbn [printDefinedLocations fold_left].
  destruct (Fprintf out _) as [e1 out1]. cbn [snd].
  rewrite (AnnotateLocation_unavailable fs l _ Hl).
  cbn [bindO snd textio.base textio.NewPrefixWriter]. apply IH.
Qed.

(** X10. A diagnostic none of whose locations is available ([Line = 0]) is
    printed without a look at the files: for every sink, [PrettyPrint]
    returns, and it returns the same for all file systems. *)
Theorem PrettyPrint_without_location {W : Type} `{Writer W} (d : PrettyError)
  (out : W) :
  Forall (fun l => Line (NodeLocation l) = 0) (allLocations d) ->
  exists out' : W, forall fs : FileSystem, PrettyPrint fs d out = Returned out'.
Proof.
  intros Hall. unfold allLocations in Hall.
  apply Forall_cons_iff in Hall as [Hloc Hlocs].
  destruct d; cbn [location] in Hloc;
    try (eexists; intros fs; rewrite PrettyPrint_steps; cbn [location];
         rewrite (AnnotateLocation_unavailable fs _ _ Hloc);
         cbn [bindO snd afterAnnotation]; reflexivity).
  eexists. intros fs. rewrite PrettyPrint_steps. cbn [location].
  rewrite (AnnotateLocation_unavailable fs _ _ Hloc).
  cbn [bindO snd afterAnnotation].
  rewrite (printDefinedLocations_unavailable fs DefinedLocations Hlocs).
  cbn [bindO]. reflexivity.
Qed.

(** An instance: an unknown tag without a location, file systems that
    differ. *)
Lemma PrettyPrint_without_location_witness :
  exists out' : Buffer,
    forall fs : FileSystem,
      PrettyPrint fs
        (UnknownTagError "intro"
           {| FilePath := "gone.lit"; NodeLocation := {| Line := 0; Col := 0 |};
              Length := 0 |}) emptyBuffer = Returned out'.
Proof.
  apply (PrettyPrint_without_location
           (UnknownTagError "intro"
              {| FilePath := "gone.lit";
                 NodeLocation := {| Line := 0; Col := 0 |}; Length := 0 |})
           emptyBuffer).
  repeat constructor.
Defined.



(** The narrative of the instance, as text. *)
Example PrettyPrint_FailedFunction_text :
  PrettyPrint files (FailedFunctionError "title" boom (at_ "doc.lit" 3 2 3))
    emptyBuffer
  = Returned
      (NewBuffer
         ("doc.lit:3: function \title returned an error:" ++ nl ++ nl
          ++ "   3| body" ++ nl
          ++ "       " ++ red ++ "^^^" ++ reset ++ nl
          ++ "error: boom" ++ nl)).
Proof. vm_compute. reflexivity. Qed.





(** ** The template functions and the page on a buffer *)

Lemma writeAll_Buffer (pieces : list string) :
  forall b : Buffer,
    writeAll pieces b = (None, NewBuffer (bytes b ++ concat_all pieces)).
Proof.
  induction pieces as [|p pieces IH]; intros b.
  - cbn [writeAll concat_all]. rewrite StringFacts.append_nil_r. now destruct b.
  - cbn [writeAll concat_all]. unfold Write at 1, Buffer_Writer.
    rewrite IH. cbn [bytes]. now rewrite StringFacts.append_assoc.
Qed.

(** On a buffer, the pieces of a template are appended, up to its
    failure. *)
Lemma Execute_Buffer (t : Template) (b : Buffer) (data : TemplateData) :
  Execute (Some t) b data
  = Returned (snd (run t data),
              NewBuffer (bytes b ++ concat_all (fst (run t data)))).
Proof.
  unfold Execute. destruct (run t data) as [pieces err].
  now rewrite writeAll_Buffer.
Qed.

(** X14. The template function ["annotate"], for a location whose line is
    read and split: it returns the text that the template
    [annotated-line.tmpl] writes for the view, and when the template fails,
    the error and no text, what the template wrote until then being
    dropped. *)
Theorem annotate_text (fs : FileSystem) (errorTmpl : TemplateSet)
  (t : Template) (loc : ErrorLocation) (line : string) (data : AnnotationData) :
  Lookup errorTmpl "annotated-line.tmpl" = Some t ->
  Line (NodeLocation loc) <> 0 ->
  lineInQuestion fs loc = (line, None) ->
  annotationData loc line = Returned data ->
  annotate fs errorTmpl loc = Returned (rendered (run t (LineData data))).
Proof.
  intros Ht Hl Hr Hd. unfold annotate, AnnotatedHTML.
  apply Z.eqb_neq in Hl. rewrite Hl, Hr, Hd, Ht. cbn [bindO].
  rewrite Execute_Buffer. cbn [bindO bytes append]. unfold rendered.
  now destruct (snd (run t (LineData data))).
Qed.

(** An instance: line 3 of [doc.lit] with the sample template. *)
Lemma annotate_text_witness :
  annotate files bundle (at_ "doc.lit" 3 2 3)
  = Returned
      (rendered
         (run showLine
            (LineData
               {| AD_FilePath := "doc.lit"; AD_EOF := false; AD_Lineno := "   3";
                  AD_Prefix := "b"; AD_Annotated := "ody";
                  AD_Suffix := EmptyString |}))).
Proof.
  apply (annotate_text files bundle showLine (at_ "doc.lit" 3 2 3) "body").
  - reflexivity.
  - simpl. discriminate.
  - vm_compute. reflexivity.
  - vm_compute. reflexivity.
Defined.

Module EscapeFacts.

Import html.

Ltac escape_cases c :=
  unfold escapeByte;
  repeat match goal with
         | |- context [if Ascii.eqb c ?k then _ else _] =>
             let E := fresh "E" in destruct (Ascii.eqb c k) eqn:E
         end;
  try reflexivity.

Lemma escapeByte_lt (c : ascii) : contains "<" (escapeByte c) = false.
Proof.
  escape_cases c. cbn [contains]. rewrite Ascii.eqb_sym.
  match goal with H : Ascii.eqb c "<" = false |- _ => now rewrite H end.
Qed.

Lemma escapeByte_gt (c : ascii) : contains ">" (escapeByte c) = false.
Proof.
  escape_cases c. cbn [contains]. rewrite Ascii.eqb_sym.
  match goal with H : Ascii.eqb c ">" = false |- _ => now rewrite H end.
Qed.

Lemma escapeByte_quote (c : ascii) : contains quote (escapeByte c) = false.
Proof.
  escape_cases c. cbn [contains]. rewrite Ascii.eqb_sym.
  match goal with H : Ascii.eqb c quote = false |- _ => now rewrite H end.
Qed.

Lemma escapeByte_apostrophe (c : ascii) :
  contains apostrophe (escapeByte c) = false.
Proof.
  escape_cases c. cbn [contains]. rewrite Ascii.eqb_sym.
  match goal with H : Ascii.eqb c apostrophe = false |- _ => now rewrite H end.
Qed.

(** A byte that no escape of a byte holds is in no escaped string. *)
Lemma HTMLEscapeString_free (x : ascii) :
  (forall c, contains x (escapeByte c) = false) ->
  forall s, contains x (HTMLEscapeString s) = false.
Proof.
  intros Hx. induction s as [|c s IH]; [reflexivity|].
  cbn [HTMLEscapeString]. now rewrite contains_append, Hx, IH.
Qed.

End EscapeFacts.

(** X15. For an error that is none of the diagnostics, the template
    function ["error"] returns, without an error and whatever the template
    set, the escaped message between the tags of a [pre] block; the escaped
    message holds no angle bracket, no quote and no apostrophe, so the
    message cannot add markup to the page. *)
Theorem errorHTML_foreign_error (errorTmpl : TemplateSet) (err : error) :
  (forall d : PrettyError, err <> Pretty d) ->
  let body := html.HTMLEscapeString (Error err) in
  errorHTML errorTmpl err
  = Returned (html.preOpen ++ body ++ html.preClose, None)
  /\ contains "<" body = false
  /\ contains ">" body = false
  /\ contains html.quote body = false
  /\ contains html.apostrophe body = false.
Proof.
  intros Hforeign body. split.
  - destruct err as [|msg|d]; try reflexivity. now destruct (Hforeign d).
  - unfold body. repeat split; apply EscapeFacts.HTMLEscapeString_free.
    + apply EscapeFacts.escapeByte_lt.
    + apply EscapeFacts.escapeByte_gt.
    + apply EscapeFacts.escapeByte_quote.
    + apply EscapeFacts.escapeByte_apostrophe.
Qed.

(** An instance: a message with a tag in it, and no template at all. *)
Lemma errorHTML_foreign_error_witness :
  let body := html.HTMLEscapeString (Error (errorString "<b>boom</b> & more")) in
  errorHTML [] (errorString "<b>boom</b> & more")
  = Returned (html.preOpen ++ body ++ html.preClose, None)
  /\ contains "<" body = false
  /\ contains ">" body = false
  /\ contains html.quote body = false
  /\ contains html.apostrophe body = false.
Proof.
  apply (errorHTML_foreign_error [] (errorString "<b>boom</b> & more")).
  intros d. discriminate.
Defined.

(** The instance, as text. *)
Example errorHTML_text :
  errorHTML [] (errorString "<b>boom</b> & more")
  = Returned
      (html.preOpen ++ "&lt;b&gt;boom&lt;/b&gt; &amp; more" ++ "</pre>", None).
Proof. vm_compute. reflexivity. Qed.

(** X16. For a diagnostic, the template function ["error"] returns the text
    that the template of its kind writes for it, and when that template
    fails, the error and no text. *)
Theorem errorHTML_diagnostic (errorTmpl : TemplateSet) (t : Template)
  (d : PrettyError) :
  Lookup errorTmpl (kindTemplate d) = Some t ->
  errorHTML errorTmpl (Pretty d)
  = Returned (rendered (run t (ErrorData (Pretty d)))).
Proof.
  intros Ht. unfold errorHTML.
  assert (Hhtml : PrettyHTML errorTmpl d (NewBuffer EmptyString)
                  = Execute (Some t) (NewBuffer EmptyString) (ErrorData (Pretty d)))
    by (destruct d; cbn [PrettyHTML kindTemplate] in *; now rewrite Ht).
  rewrite Hhtml, Execute_Buffer. cbn [bindO bytes append]. unfold rendered.
  now destruct (snd (run t (ErrorData (Pretty d)))).
Qed.

(** An instance: a template for parse errors that fails. *)
Lemma errorHTML_diagnostic_witness :
  errorHTML [("parse-error.tmpl", failing "no such field")]
    (Pretty (ParseError boom (at_ "doc.lit" 1 1 5)))
  = Returned
      (rendered
         (run (failing "no such field")
            (ErrorData (Pretty (ParseError boom (at_ "doc.lit" 1 1 5)))))).
Proof.
  apply (errorHTML_diagnostic [("parse-error.tmpl", failing "no such field")]
           (failing "no such field") (ParseError boom (at_ "doc.lit" 1 1 5))).
  reflexivity.
Defined.

(** X17. On a buffer, with [page.tmpl] in the set, the page that
    [ErrorPage] leaves is the text of the template; when the template
    fails, it is the text written until then followed by
    ["failed to render error page: "] and the message of the failure. *)
Theorem ErrorPage_Buffer (errorTmpl : TemplateSet) (page : Template)
  (err : error) (w : Buffer) :
  Lookup errorTmpl "page.tmpl" = Some page ->
  ErrorPage errorTmpl err w
  = Returned
      (NewBuffer
         (bytes w ++ concat_all (fst (run page (ErrorData err)))
          ++ match snd (run page (ErrorData err)) with
             | Some renderErr =>
                 "failed to render error page: " ++ Error renderErr
             | None => EmptyString
             end)).
Proof.
  intros Hpage. unfold ErrorPage. rewrite Hpage, Execute_Buffer.
  cbn [bindO]. destruct (snd (run page (ErrorData err))) as [renderErr|].
  - rewrite Fprintf_Buffer. cbn [snd bytes].
    now rewrite StringFacts.append_assoc.
  - now rewrite StringFacts.append_nil_r.
Qed.

(** An instance: the page template fails after its first piece of text. *)
Lemma ErrorPage_Buffer_witness :
  ErrorPage [("page.tmpl", failing "boom")] (errorString "oops") emptyBuffer
  = Returned
      (NewBuffer
         (bytes emptyBuffer
          ++ concat_all (fst (run (failing "boom") (ErrorData (errorString "oops"))))
          ++ match snd (run (failing "boom") (ErrorData (errorString "oops"))) with
             | Some renderErr =>
                 "failed to render error page: " ++ Error renderErr
             | None => EmptyString
             end)).
Proof.
  apply (ErrorPage_Buffer [("page.tmpl", failing "boom")] (failing "boom")
           (errorString "oops") emptyBuffer).
  reflexivity.
Defined.

(** ** Line numbers below 1 *)

(** X18. [lineInQuestion] discards no line for a line number below 1 (the
    least [int] apart, where the subtraction wraps): it returns what it
    returns for line 1. The callers stop at line 0 only, so a negative line
    number is annotated with the first line of the file. *)
Theorem lineInQuestion_below_first_line (fs : FileSystem) (loc : ErrorLocation) :
  GoInt.min_int < Line (NodeLocation loc) <= 1 ->
  lineInQuestion fs loc
  = lineInQuestion fs
      {| FilePath := FilePath loc;
         NodeLocation := {| Line := 1; Col := Col (NodeLocation loc) |};
         Length := Length loc |}.
Proof.
  intros Hline. unfold lineInQuestion. cbn [FilePath NodeLocation Line].
  rewrite IntFacts.sub_exact
    by (unfold GoInt.is_int, GoInt.min_int, GoInt.max_int in *; lia).
  replace (Z.to_nat (Line (NodeLocation loc) - 1)) with 0%nat by lia.
  reflexivity.
Qed.

(** An instance: line -3 of [doc.lit]. *)
Lemma lineInQuestion_below_first_line_witness :
  lineInQuestion files
    {| FilePath := "doc.lit"; NodeLocation := {| Line := -3; Col := 1 |};
       Length := 1 |}
  = lineInQuestion files
      {| FilePath := "doc.lit"; NodeLocation := {| Line := 1; Col := 1 |};
         Length := 1 |}.
Proof.
  apply (lineInQuestion_below_first_line files
           {| FilePath := "doc.lit"; NodeLocation := {| Line := -3; Col := 1 |};
              Length := 1 |}).
  vm_compute. split; [reflexivity | discriminate].
Defined.

(** ** A read that fails *)

(** X19. When the reads of a file end with an error that is not [io.EOF],
    [lineInQuestion] returns that error for every line number beyond the
    lines that could be read, the one right after them included. *)
Theorem lineInQuestion_read_error (fs : FileSystem) (loc : ErrorLocation)
  (f : File) :
  fs (FilePath loc) = Opens f ->
  is_EOF (at_end f) = false ->
  Z.of_nat (List.length (linesOf f)) < Line (NodeLocation loc) <= GoInt.max_int ->
  lineInQuestion fs loc = (EmptyString, Some (at_end f)).
Proof.
  intros Hopen Herr Hline.
  destruct (lineInQuestion_lines fs loc f Hopen ltac:(lia)) as [_ [Hnext Hbeyond]].
  destruct (Z.eq_dec (Line (NodeLocation loc))
              (Z.of_nat (List.length (linesOf f)) + 1)) as [Heq|Hne].
  - rewrite Hnext by lia. now rewrite Herr.
  - apply Hbeyond. lia.
Qed.

(** An instance: line 2 of a device that fails after its first line. *)
Lemma lineInQuestion_read_error_witness :
  lineInQuestion device (at_ "dev.lit" 2 1 1)
  = (EmptyString, Some (at_end failingDevice)).
Proof.
  apply (lineInQuestion_read_error device (at_ "dev.lit" 2 1 1)
           failingDevice).
  - reflexivity.
  - reflexivity.
  - vm_compute. split; [reflexivity | discriminate].
Defined.

(** ** The carets and the marked bytes *)

Lemma substring_after (a s : string) (n m : nat) :
  substring (String.length a + n) m (a ++ s) = substring n m s.
Proof.
  induction a as [|c a IH]; [reflexivity|].
  cbn [String.length Nat.add append substring]. exact IH.
Qed.

(** X20. For a window within the line, the two renderings agree: the bytes
    of the first row that stand above the carets of [AnnotateLocation] are
    the annotated part of the view of [AnnotatedHTML]. *)
Theorem carets_under_annotated_part (fs : FileSystem) (loc : ErrorLocation)
  (line : string) (out : Buffer) :
  1 <= Line (NodeLocation loc) ->
  1 <= Col (NodeLocation loc) ->
  0 <= Length loc ->
  Col (NodeLocation loc) - 1 + Length loc <= len line ->
  len (gutter loc) + 2 + len line <= GoInt.max_int ->
  lineInQuestion fs loc = (line, None) ->
  exists (pad carets : nat) (d : AnnotationData),
    AnnotateLocation fs loc out
    = Returned
        (None,
         NewBuffer (bytes out ++ (gutter loc ++ "| " ++ line ++ nl)
                    ++ (replicate pad " " ++ red ++ replicate carets "^" ++ reset
                        ++ nl)))
    /\ annotationData loc line = Returned d
    /\ substring pad carets (gutter loc ++ "| " ++ line) = AD_Annotated d.
Proof.
  intros Hline Hcol Hlen Hwin Hmax Hread.
  assert (H0 := IntFacts.len_nonneg (gutter loc)).
  assert (Hpad : padWidth loc
                 = len (gutter loc) + 2 + Col (NodeLocation loc) - 1)
    by (apply RowFacts.padWidth_exact; lia).
  destruct (annotationData_in_range loc line Hcol Hlen Hwin ltac:(lia))
    as [d [Hd [_ [Ha _]]]].
  exists (Z.to_nat (padWidth loc)), (Z.to_nat (Length loc)), d.
  split; [|split; [exact Hd|]].
  - rewrite (AnnotateLocation_Buffer fs loc line out); try assumption; try lia.
    reflexivity.
  - rewrite Ha, Hpad.
    replace (Z.to_nat (len (gutter loc) + 2 + Col (NodeLocation loc) - 1))
      with (String.length (gutter loc ++ "| ")
            + Z.to_nat (Col (NodeLocation loc) - 1))%nat
      by (rewrite StringFacts.length_append; cbn [String.length];
          unfold len; lia).
    rewrite <- (StringFacts.append_assoc (gutter loc) "| " line).
    apply substring_after.
Qed.

(** An instance: column 2, length 3 on line 3 of [doc.lit]. *)
Lemma carets_under_annotated_part_witness :
  exists (pad carets : nat) (d : AnnotationData),
    AnnotateLocation files (at_ "doc.lit" 3 2 3) emptyBuffer
    = Returned
        (None,
         NewBuffer (bytes emptyBuffer
                    ++ (gutter (at_ "doc.lit" 3 2 3) ++ "| " ++ "body" ++ nl)
                    ++ (replicate pad " " ++ red ++ replicate carets "^" ++ reset
                        ++ nl)))
    /\ annotationData (at_ "doc.lit" 3 2 3) "body" = Returned d
    /\ substring pad carets (gutter (at_ "doc.lit" 3 2 3) ++ "| " ++ "body")
       = AD_Annotated d.
Proof.
  apply (carets_under_annotated_part files (at_ "doc.lit" 3 2 3) "body"
           emptyBuffer).
  - simpl. lia.
  - simpl. lia.
  - simpl. lia.
  - vm_compute. discriminate.
  - vm_compute. discriminate.
  - vm_compute. reflexivity.
Defined.
